(** * Sensor dashboard: rolling buffer, statistics, anomaly detection, streaming

    A shallow embedding of [sensor-dashboard-plotly/utils.py] and of the
    streaming route of [sensor-dashboard-plotly/app.py].

    - Python floats and Polars [Float64] columns are IEEE binary64 numbers:
      they are modelled by Rocq's primitive floats ([PrimFloat.float]).
    - [collections.deque(maxlen=100)] is a list, oldest entry first.
    - A Python [dict] is an association list with string keys, in insertion
      order; Python values are the inductive type [pyval].
    - Code that may raise returns a [result].
    - What a library decides and its documentation leaves open (the order of
      the groups of [value_counts], the last digits of [std]) is a parameter
      of the functions that depend on it.
    - Calls to the logger have no effect on any returned value and are left
      out. *)

From Stdlib Require Import Floats ZArith NArith List String Ascii Bool Arith Lia.
From Stdlib Require Import Sorting.Sorted Sorting.Permutation.
From Stdlib Require Uint63.
Import ListNotations.

Local Set Warnings "-register-all".
Local Open Scope string_scope.
Local Open Scope nat_scope.
Local Open Scope list_scope.

(* ===================================================================== *)
(** ** Errors *)
(* ===================================================================== *)

(** The exceptions that the modelled code can raise. *)
Inductive exn : Type :=
| ComputeError (column : string) (* Polars: strict [strptime] conversion failed *).

Inductive result (A : Type) : Type :=
| Ok (a : A)
| Raise (e : exn).
Arguments Ok {A} a.
Arguments Raise {A} e.

Definition bind {A B : Type} (r : result A) (k : A -> result B) : result B :=
  match r with
  | Ok a => k a
  | Raise e => Raise e
  end.

Notation "x <- r ;; k" := (bind r (fun x => k))
  (at level 61, r at next level, right associativity).

(** [mapM f l] applies [f] to the elements of [l] from left to right and
    stops at the first one that raises. *)
Fixpoint mapM {A B : Type} (f : A -> result B) (l : list A) : result (list B) :=
  match l with
  | [] => Ok []
  | a :: l' => b <- f a ;; bs <- mapM f l' ;; Ok (b :: bs)
  end.

(* ===================================================================== *)
(** ** Python values *)
(* ===================================================================== *)

(** [datetime.datetime] (naive: no time zone), as its seven fields. *)
Record datetime : Type := mkDatetime {
  year : N;
  month : N;
  day : N;
  hour : N;
  minute : N;
  second : N;
  microsecond : N
}.

(** A cell of a Polars [Datetime] column (time unit microseconds, no time
    zone): the number of microseconds since 1970-01-01T00:00:00. *)
Definition timestamp_value : Type := Z.

(** Python values. [to_dicts] turns a [Datetime] cell into the
    [datetime.datetime] of that instant: [PyDatetime] holds the cell. (The
    text that [isoformat] writes for a [datetime.datetime] parses to a cell
    in the years 1 to 9999, the range of [datetime.datetime].) *)
Inductive pyval : Type :=
| PyNone
| PyFloat (f : float)
| PyInt (n : Z)
| PyStr (s : string)
| PyDatetime (t : timestamp_value)
| PyList (l : list pyval)
| PyDict (d : list (string * pyval)).

Definition pydict : Type := list (string * pyval).

(** [d.get(k)]: the first binding of [k]. *)
Fixpoint dict_get (d : pydict) (k : string) : option pyval :=
  match d with
  | [] => None
  | (k', v) :: d' => if String.eqb k k' then Some v else dict_get d' k
  end.

Definition dict_keys (d : pydict) : list string := map fst d.

(* ===================================================================== *)
(** ** utils.py: readings and the rolling buffer *)
(* ===================================================================== *)

(** The dict built by [SensorData.generate_reading]: always the same five
    keys, so a record. *)
Record Reading : Type := mkReading {
  timestamp : string;
  temperature : float;
  humidity : float;
  pressure : float;
  status : string
}.

(** [collections.deque]: [append] adds on the right and, when the deque is
    bounded and now too long, removes one element on the left. *)
Section Deque.
Context {A : Type}.
Variable maxlen : nat.

Definition deque_append (d : list A) (x : A) : list A :=
  let d' := d ++ [x] in
  if maxlen <? List.length d' then tl d' else d'.

(** [extend] appends the elements one by one. *)
Definition deque_extend (d : list A) (xs : list A) : list A :=
  fold_left deque_append xs d.
End Deque.

(** [recent_readings = deque(maxlen=100)] *)
Definition recent_readings_maxlen : nat := 100.
Definition recent_readings_empty : list Reading := [].
Definition recent_readings_append : list Reading -> Reading -> list Reading :=
  deque_append recent_readings_maxlen.
Definition recent_readings_extend : list Reading -> list Reading -> list Reading :=
  deque_extend recent_readings_maxlen.

(** The last [n] elements of a list, in order. *)
Definition lastn {A : Type} (n : nat) (l : list A) : list A :=
  skipn (List.length l - n) l.

(* ===================================================================== *)
(** ** The calendar *)
(* ===================================================================== *)

(** The proleptic Gregorian calendar as the module [datetime] of the
    standard library computes it, with day 1 the first of January of
    year 1. *)

Definition is_leap (y : Z) : bool :=
  ((y mod 4 =? 0) && (negb (y mod 100 =? 0) || (y mod 400 =? 0)))%Z.

Definition days_before_year (year : Z) : Z :=
  let y := (year - 1)%Z in (y * 365 + y / 4 - y / 100 + y / 400)%Z.

(** [_DAYS_IN_MONTH] and [_DAYS_BEFORE_MONTH]; index 0 holds -1. *)
Definition DAYS_IN_MONTH (month : Z) : Z :=
  match month with
  | 1 => 31 | 2 => 28 | 3 => 31 | 4 => 30 | 5 => 31 | 6 => 30
  | 7 => 31 | 8 => 31 | 9 => 30 | 10 => 31 | 11 => 30 | 12 => 31
  | _ => -1
  end%Z.

Definition DAYS_BEFORE_MONTH (month : Z) : Z :=
  match month with
  | 1 => 0 | 2 => 31 | 3 => 59 | 4 => 90 | 5 => 120 | 6 => 151
  | 7 => 181 | 8 => 212 | 9 => 243 | 10 => 273 | 11 => 304 | 12 => 334
  | _ => -1
  end%Z.

Definition days_before_month (year month : Z) : Z :=
  (DAYS_BEFORE_MONTH month + (if (2 <? month) && is_leap year then 1 else 0))%Z.

Definition ymd2ord (year month day : Z) : Z :=
  (days_before_year year + days_before_month year month + day)%Z.

Definition MAXORDINAL : Z := 3652059.

Definition ord2ymd (ordinal : Z) : Z * Z * Z :=
  let n := (ordinal - 1)%Z in
  let n400 := (n / 146097)%Z in
  let n := (n mod 146097)%Z in
  let year := (n400 * 400 + 1)%Z in
  let n100 := (n / 36524)%Z in
  let n := (n mod 36524)%Z in
  let n4 := (n / 1461)%Z in
  let n := (n mod 1461)%Z in
  let n1 := (n / 365)%Z in
  let n := (n mod 365)%Z in
  let year := (year + n100 * 100 + n4 * 4 + n1)%Z in
  if ((n1 =? 4) || (n100 =? 4))%Z then ((year - 1)%Z, 12%Z, 31%Z)
  else
    let leapyear := ((n1 =? 3) && (negb (n4 =? 24) || (n100 =? 3)))%Z in
    let month := Z.shiftr (n + 50) 5 in
    let preceding :=
      (DAYS_BEFORE_MONTH month + (if (2 <? month) && leapyear then 1 else 0))%Z in
    if (n <? preceding)%Z then
      let month := (month - 1)%Z in
      let preceding :=
        (preceding
         - (DAYS_IN_MONTH month + (if (month =? 2) && leapyear then 1 else 0)))%Z in
      (year, month, (n - preceding + 1)%Z)
    else (year, month, (n - preceding + 1)%Z).

(** [_days_in_month(year, month)] *)
Definition days_in_month (year month : Z) : Z :=
  if ((month =? 2) && is_leap year)%Z then 29%Z else DAYS_IN_MONTH month.

(** The ordinal of 1970-01-01, the day from which a [Datetime] cell
    counts. *)
Definition EPOCH_ORDINAL : Z := 719163.

(* ===================================================================== *)
(** ** Timestamps: [datetime.isoformat] and [strptime] *)
(* ===================================================================== *)

Definition digit_char (n : N) : ascii := ascii_of_N (48 + n mod 10)%N.

(** [zero_pad w n]: the [w] low decimal digits of [n], most significant
    first (Python's ["%0wd"] for a number of at most [w] digits, which is
    what the fields of a [datetime] are). *)
Fixpoint zero_pad (w : nat) (n : N) : string :=
  match w with
  | 0 => EmptyString
  | S w' => String.append (zero_pad w' (n / 10)%N) (String (digit_char n) EmptyString)
  end.

(** [datetime.isoformat()] of a naive datetime: [YYYY-MM-DDTHH:MM:SS.ffffff],
    or [YYYY-MM-DDTHH:MM:SS] when [microsecond] is 0. *)
Definition isoformat (t : datetime) : string :=
  String.concat ""
    [ zero_pad 4 (year t); "-"; zero_pad 2 (month t); "-"; zero_pad 2 (day t);
      "T"; zero_pad 2 (hour t); ":"; zero_pad 2 (minute t); ":";
      zero_pad 2 (second t);
      if (microsecond t =? 0)%N then "" else String.append "." (zero_pad 6 (microsecond t)) ].

Definition is_digit (c : ascii) : bool :=
  ((48 <=? N_of_ascii c) && (N_of_ascii c <=? 57))%N.

Definition digit_val (c : ascii) : N := (N_of_ascii c - 48)%N.

(** The fields a format can name, and the items of a format. [%f] names
    the nanoseconds: the digits it reads are a number of nanoseconds. *)
Inductive field : Type :=
| FYear | FMonth | FDay | FHour | FMinute | FSecond | FNanosecond.

Inductive item : Type :=
| Literal (c : ascii)
| Numeric (f : field).

(** The most digits a numeric item reads. *)
Definition field_width (f : field) : nat :=
  match f with
  | FYear => 4
  | FNanosecond => 9
  | _ => 2
  end.

(** The format language, as far as the format used here needs it. *)
Fixpoint compile_format (fmt : string) : option (list item) :=
  match fmt with
  | EmptyString => Some []
  | String "%" (String c rest) =>
      let spec :=
        if Ascii.eqb c "Y" then Some FYear
        else if Ascii.eqb c "m" then Some FMonth
        else if Ascii.eqb c "d" then Some FDay
        else if Ascii.eqb c "H" then Some FHour
        else if Ascii.eqb c "M" then Some FMinute
        else if Ascii.eqb c "S" then Some FSecond
        else if Ascii.eqb c "f" then Some FNanosecond
        else None in
      match spec, compile_format rest with
      | Some f, Some items => Some (Numeric f :: items)
      | _, _ => None
      end
  | String c rest =>
      match compile_format rest with
      | Some items => Some (Literal c :: items)
      | None => None
      end
  end.

(** Reads at most [w] leading digits of [s]. *)
Fixpoint take_digits (w : nat) (s : string) : list N * string :=
  match w, s with
  | S w', String c s' =>
      if is_digit c
      then let (ds, rest) := take_digits w' s' in (digit_val c :: ds, rest)
      else ([], s)
  | _, _ => ([], s)
  end.

(** A numeric item needs at least one digit. *)
Definition scan_number (w : nat) (s : string) : option (N * string) :=
  match take_digits w s with
  | ([], _) => None
  | (ds, rest) => Some (fold_left (fun acc d => 10 * acc + d)%N ds 0%N, rest)
  end.

(** What the items have read. *)
Record parsed : Type := mkParsed {
  p_year : N;
  p_month : N;
  p_day : N;
  p_hour : N;
  p_minute : N;
  p_second : N;
  p_nanosecond : N
}.

Definition set_field (f : field) (n : N) (t : parsed) : parsed :=
  match f with
  | FYear => mkParsed n (p_month t) (p_day t) (p_hour t) (p_minute t) (p_second t) (p_nanosecond t)
  | FMonth => mkParsed (p_year t) n (p_day t) (p_hour t) (p_minute t) (p_second t) (p_nanosecond t)
  | FDay => mkParsed (p_year t) (p_month t) n (p_hour t) (p_minute t) (p_second t) (p_nanosecond t)
  | FHour => mkParsed (p_year t) (p_month t) (p_day t) n (p_minute t) (p_second t) (p_nanosecond t)
  | FMinute => mkParsed (p_year t) (p_month t) (p_day t) (p_hour t) n (p_second t) (p_nanosecond t)
  | FSecond => mkParsed (p_year t) (p_month t) (p_day t) (p_hour t) (p_minute t) n (p_nanosecond t)
  | FNanosecond => mkParsed (p_year t) (p_month t) (p_day t) (p_hour t) (p_minute t) (p_second t) n
  end.

(** Matches the text against the items, left to right; the whole text must
    be used up. *)
Fixpoint parse_items (items : list item) (s : string) (acc : parsed) : option parsed :=
  match items with
  | [] => match s with EmptyString => Some acc | _ => None end
  | Literal c :: items' =>
      match s with
      | String c' s' => if Ascii.eqb c c' then parse_items items' s' acc else None
      | EmptyString => None
      end
  | Numeric f :: items' =>
      match scan_number (field_width f) s with
      | Some (n, rest) => parse_items items' rest (set_field f n acc)
      | None => None
      end
  end.

(** The fields read must name a day of the calendar and a time of day; the
    second may be 60, a leap second. *)
Definition valid_fields (t : parsed) : bool :=
  ((1 <=? p_month t) && (p_month t <=? 12) && (1 <=? p_day t) &&
   (p_hour t <=? 23) && (p_minute t <=? 59) && (p_second t <=? 60))%N
  && (Z.of_N (p_day t) <=? days_in_month (Z.of_N (p_year t)) (Z.of_N (p_month t)))%Z.

(** The cell for the fields read: whole microseconds since the epoch. The
    nanoseconds are cut to microseconds; a second 60 counts as the first
    second of the next minute. *)
Definition timestamp_micros (t : parsed) : timestamp_value :=
  (((ymd2ord (Z.of_N (p_year t)) (Z.of_N (p_month t)) (Z.of_N (p_day t)) - EPOCH_ORDINAL)
    * 86400
    + Z.of_N (p_hour t) * 3600 + Z.of_N (p_minute t) * 60 + Z.of_N (p_second t))
   * 1000000
   + Z.of_N (p_nanosecond t) / 1000)%Z.

(** [strptime] of one string: the library ([str.strptime] of Polars, which
    parses with the [chrono] format language) is not part of the repository;
    this is its behaviour on a format made of literals and the numeric items
    above, for a text without blanks and signs (which the library skips or
    reads in front of a number, and which [isoformat] does not write). The
    result is [None] when the text does not match the format. *)
Definition strptime (fmt : string) (s : string) : option timestamp_value :=
  match compile_format fmt with
  | Some items =>
      match parse_items items s (mkParsed 0 0 0 0 0 0 0) with
      | Some t => if valid_fields t then Some (timestamp_micros t) else None
      | None => None
      end
  | None => None
  end.

(* ===================================================================== *)
(** ** Polars: the column operations that utils.py calls *)
(* ===================================================================== *)

(** Polars is a library, not part of the repository. What follows is the
    behaviour of the operations used, on [Float64] and string columns without
    nulls, for columns of at most a hundred values (what the deque holds):
    - [mean] is the sum, accumulated from left to right, over the count;
    - [std] (with the default [ddof = 1]) is the sample standard deviation,
      null when [N <= ddof]; the library accumulates in an order of its own
      choosing, so the last digits of the float it returns are not fixed
      here: [std] is a parameter, [pl_std], of the functions that call it;
    - arithmetic is IEEE 754 arithmetic, so a division by zero is not an
      error: it gives an infinity or a NaN;
    - comparisons use the total order of Polars on floats, in which a NaN is
      equal to itself and greater than every other value;
    - an operand that is null gives null, and [filter] drops the rows whose
      predicate is null. *)

Definition float_of_nat (n : nat) : float :=
  PrimFloat.of_uint63 (Uint63.of_Z (Z.of_nat n)).

Definition float_sum (xs : list float) : float :=
  fold_left PrimFloat.add xs 0%float.

Definition col_mean (xs : list float) : option float :=
  match xs with
  | [] => None
  | _ => Some (float_sum xs / float_of_nat (List.length xs))%float
  end.


(** The total order on floats ([TotalOrd] in the library). *)
Definition tot_ge (x y : float) : bool := is_nan x || (y <=? x)%float.
Definition tot_lt (x y : float) : bool := negb (tot_ge x y).
Definition tot_gt (x y : float) : bool := tot_lt y x.

(** Arithmetic on cells that may be null. *)
Definition lift2 (op : float -> float -> float) (a b : option float) : option float :=
  match a, b with
  | Some x, Some y => Some (op x y)
  | _, _ => None
  end.

Definition py_of_cell (c : option float) : pyval :=
  match c with
  | Some f => PyFloat f
  | None => PyNone
  end.

(** A row of the frame returned by [get_sensor_dataframe]: the reading with
    its timestamp parsed. *)
Record Row : Type := mkRow {
  r_timestamp : timestamp_value;
  r_temperature : float;
  r_humidity : float;
  r_pressure : float;
  r_status : string
}.

(** A frame is the list of its rows; [pl.DataFrame()] is the frame without
    rows. *)
Definition DataFrame : Type := list Row.

Definition is_empty (df : DataFrame) : bool :=
  match df with [] => true | _ => false end.

(** [value_counts()] with its default [sort=False]: one struct
    [{value, count}] for each distinct value. The order of the structs is
    not specified by the library (the groups come out of a hash table), so
    it is a parameter: [group_order col] is the order in which the distinct
    values of [col] come out. *)
Definition group_order_ok (group_order : list string -> list string) : Prop :=
  forall col, Permutation (group_order col) (nodup string_dec col).

Definition value_counts (group_order : list string -> list string)
    (col : list string) : list (string * nat) :=
  map (fun v => (v, count_occ string_dec col v)) (group_order col).

(** The distinct values in the order of their first occurrence: one possible
    order. *)
Fixpoint first_seen (col : list string) : list string :=
  match col with
  | [] => []
  | v :: col' => v :: filter (fun w => negb (String.eqb v w)) (first_seen col')
  end.

(* ===================================================================== *)
(** ** utils.py: the functions *)
(* ===================================================================== *)

(** The values that [generate_reading] draws: [round(random.uniform(..), 1)]
    three times and [random.choice] once. *)
Record Draw : Type := mkDraw {
  d_temperature : float;
  d_humidity : float;
  d_pressure : float;
  d_status : string
}.

(** [SensorData.generate_reading(timestamp=None)]; [now] is the value of
    [datetime.now()]. *)
Definition generate_reading (now : datetime) (ts : option datetime) (d : Draw) : Reading :=
  let ts' := match ts with None => now | Some t => t end in
  {| timestamp := isoformat ts';
     temperature := d_temperature d;
     humidity := d_humidity d;
     pressure := d_pressure d;
     status := d_status d |}.

Definition timestamp_format : string := "%Y-%m-%dT%H:%M:%S.%f".

(** [pl.col("timestamp").str.strptime(pl.Datetime, format=...)] with the
    default [strict=True]: raises when a value does not parse. *)
Definition parse_row (r : Reading) : result Row :=
  match strptime timestamp_format (timestamp r) with
  | Some t =>
      Ok {| r_timestamp := t;
            r_temperature := temperature r;
            r_humidity := humidity r;
            r_pressure := pressure r;
            r_status := status r |}
  | None => Raise (ComputeError "timestamp")
  end.

Definition get_sensor_dataframe (recent_readings : list Reading) : result DataFrame :=
  match recent_readings with
  | [] => Ok []
  | _ => mapM parse_row recent_readings
  end.

(** A scalar next to a longer column in [select] is repeated to the height
    of the frame. *)
Definition broadcast (height : nat) (v : pyval) : pyval := PyList (repeat v height).

Definition status_struct (vc : string * nat) : pyval :=
  PyDict [("status", PyStr (fst vc)); ("count", PyInt (Z.of_nat (snd vc)))].

Definition get_statistical_summary (group_order : list string -> list string)
    (pl_std : list float -> option float)
    (recent_readings : list Reading) : result pydict :=
  df <- get_sensor_dataframe recent_readings ;;
  if is_empty df then Ok []
  else
    let temps := map r_temperature df in
    let hums := map r_humidity df in
    let press := map r_pressure df in
    let counts := value_counts group_order (map r_status df) in
    let height := List.length counts in
    Ok [ ("temp_mean", broadcast height (py_of_cell (col_mean temps)));
         ("temp_std", broadcast height (py_of_cell (pl_std temps)));
         ("humidity_mean", broadcast height (py_of_cell (col_mean hums)));
         ("humidity_std", broadcast height (py_of_cell (pl_std hums)));
         ("pressure_mean", broadcast height (py_of_cell (col_mean press)));
         ("pressure_std", broadcast height (py_of_cell (pl_std press)));
         ("status_counts", PyList (map status_struct counts)) ].

(** [(temperature - mean) / std] for one row. *)
Definition temp_zscore (mean std : option float) (r : Row) : option float :=
  lift2 PrimFloat.div (lift2 PrimFloat.sub (Some (r_temperature r)) mean) std.

(** [pl.col("temp_zscore").abs() > 2] *)
Definition is_outlier (z : option float) : bool :=
  match z with
  | Some z => tot_gt (abs z) 2%float
  | None => false
  end.

Definition anomaly_dict (rz : Row * option float) : pydict :=
  [ ("timestamp", PyDatetime (r_timestamp (fst rz)));
    ("temperature", PyFloat (r_temperature (fst rz)));
    ("temp_zscore", py_of_cell (snd rz)) ].

Definition detect_anomalies (pl_std : list float -> option float)
    (recent_readings : list Reading) : result (list pydict) :=
  df <- get_sensor_dataframe recent_readings ;;
  if List.length df <? 10 then Ok []
  else
    let temps := map r_temperature df in
    let mean := col_mean temps in
    let std := pl_std temps in
    let df_with_zscore := map (fun r => (r, temp_zscore mean std r)) df in
    let anomalies := filter (fun rz => is_outlier (snd rz)) df_with_zscore in
    Ok (map anomaly_dict anomalies).

(* ===================================================================== *)
(** ** app.py: the metrics and the /stream route *)
(* ===================================================================== *)

Record DashboardMetrics : Type := mkMetrics {
  connection_count : Z;
  chart_generation_times : list float;
  total_requests : Z
}.

Definition track_connection (m : DashboardMetrics) : DashboardMetrics :=
  mkMetrics (connection_count m + 1) (chart_generation_times m) (total_requests m).

Definition track_disconnection (m : DashboardMetrics) : DashboardMetrics :=
  mkMetrics (Z.max 0 (connection_count m - 1)) (chart_generation_times m) (total_requests m).

(** What [event_generator] yields: [{"event": ..., "data": json.dumps(data)}].
    The JSON text is determined by the reading, which stands for it. *)
Record SseEvent : Type := mkEvent {
  event : string;
  data : Reading
}.

(** One call of [stream_sensor_data] creates one [event_generator]; the
    server iterates it and writes what it yields to the client of that
    request. [sent] is what that client has been sent. A generator is
    [Created] until its first turn, [Running] while it is suspended inside
    its [try] block (at the [yield] or in the [sleep]), and [Finished] once
    it has ended. *)
Inductive generator_state : Type := Created | Running | Finished.

Record Stream : Type := mkStream {
  gen : generator_state;
  sent : list SseEvent
}.

(** The module-level state: the shared deque, the metrics object, and the
    generators created so far, in order of creation. *)
Record App : Type := mkApp {
  recent_readings : list Reading;
  metrics : DashboardMetrics;
  streams : list Stream
}.

Definition initial_app : App := mkApp recent_readings_empty (mkMetrics 0 [] 0) [].

Fixpoint list_update {A : Type} (i : nat) (x : A) (l : list A) : list A :=
  match l, i with
  | [], _ => []
  | _ :: l', 0 => x :: l'
  | y :: l', S i' => y :: list_update i' x l'
  end.

(** [GET /stream] *)
Definition stream_sensor_data (app : App) : App :=
  mkApp (recent_readings app)
        (track_connection (metrics app))
        (streams app ++ [mkStream Created []]).

(** One turn of the [while True] loop of generator [i], up to its [yield]
    (the first turn enters the [try] block, a later one comes back from the
    [sleep]): the reading is appended to the shared deque and yielded to the
    client of this generator. The code runs on one event loop, so a turn is
    not interleaved with anything else. A generator that has finished yields
    nothing. *)
Definition event_generator_next (i : nat) (now : datetime) (d : Draw) (app : App) : App :=
  match nth_error (streams app) i with
  | Some (mkStream Finished _) | None => app
  | Some (mkStream _ out) =>
      let data := generate_reading now None d in
      mkApp (recent_readings_append (recent_readings app) data)
            (metrics app)
            (list_update i (mkStream Running (out ++ [mkEvent "sensor_update" data]))
                         (streams app))
  end.

(** What can be raised into a generator from outside:
    [asyncio.CancelledError] when the task is cancelled, another
    [Exception], or [GeneratorExit] when the generator is closed. *)
Inductive interruption : Type := Cancelled | Failed | Closed.

(** The handlers of [event_generator] catch [asyncio.CancelledError] and
    [Exception]; [GeneratorExit] is neither. *)
Definition is_handled (e : interruption) : bool :=
  match e with
  | Cancelled | Failed => true
  | Closed => false
  end.

(** An exception raised into generator [i]. In a generator suspended
    inside the [try] block a handler catches it, if it is one that the
    handlers catch, and calls [track_disconnection]. In a generator that has
    not had its first turn the body, and so the [try] block, is never
    entered: no handler runs. In both cases the generator ends. *)
Definition event_generator_throw (i : nat) (e : interruption) (app : App) : App :=
  match nth_error (streams app) i with
  | Some (mkStream Running out) =>
      mkApp (recent_readings app)
            (if is_handled e then track_disconnection (metrics app) else metrics app)
            (list_update i (mkStream Finished out) (streams app))
  | Some (mkStream Created out) =>
      mkApp (recent_readings app)
            (metrics app)
            (list_update i (mkStream Finished out) (streams app))
  | _ => app
  end.

Inductive action : Type :=
| Connect
| Next (i : nat) (now : datetime) (d : Draw)
| Throw (i : nat) (e : interruption).

Definition step (app : App) (a : action) : App :=
  match a with
  | Connect => stream_sensor_data app
  | Next i now d => event_generator_next i now d app
  | Throw i e => event_generator_throw i e app
  end.

Definition run (app : App) (actions : list action) : App := fold_left step actions app.

(** Stream [j] exists and is still open: its generator has not ended. *)
Definition is_open (app : App) (j : nat) : Prop :=
  exists g out, nth_error (streams app) j = Some (mkStream g out) /\ g <> Finished.

(** Whether a handler of [event_generator] runs when [e] is raised into a
    generator in state [g]: the generator must be inside its [try] block and
    the exception one that the handlers catch. *)
Definition handler_runs (g : generator_state) (e : interruption) : bool :=
  match g with
  | Running => is_handled e
  | _ => false
  end.

(** Stream [j] has been sent [e]. *)
Definition was_sent (app : App) (j : nat) (e : SseEvent) : Prop :=
  exists s, nth_error (streams app) j = Some s /\ In e (sent s).

(* ===================================================================== *)
(** ** Notions used in the statements *)
(* ===================================================================== *)

(** The text has a fractional-seconds part: a ["."] followed by a digit. *)
Fixpoint has_fraction (s : string) : bool :=
  match s with
  | EmptyString => false
  | String c s' =>
      (Ascii.eqb c "." && match s' with String d _ => is_digit d | EmptyString => false end)
      || has_fraction s'
  end.

(** The format has a literal ["."] followed by a numeric item. *)
Fixpoint has_dot_numeric (items : list item) : bool :=
  match items with
  | Literal c :: ((Numeric _ :: _) as items') =>
      Ascii.eqb c "." || has_dot_numeric items'
  | _ :: items' => has_dot_numeric items'
  | [] => false
  end.

(** No ["."] in the text. *)
Fixpoint no_dot (s : string) : bool :=
  match s with
  | EmptyString => true
  | String c s' => negb (Ascii.eqb c ".") && no_dot s'
  end.

(** The record that [to_dicts] makes of a row of the anomaly frame, whose
    columns are [timestamp], [temperature] and [temp_zscore]. *)
Definition anomaly_record (t : timestamp_value) (temperature : float)
    (z : option float) : pydict :=
  [ ("timestamp", PyDatetime t);
    ("temperature", PyFloat temperature);
    ("temp_zscore", py_of_cell z) ].

(** [l1] is [l2] with some elements left out. *)
Inductive subsequence {A : Type} : list A -> list A -> Prop :=
| subseq_nil : subsequence [] []
| subseq_skip (x : A) (l1 l2 : list A) : subsequence l1 l2 -> subsequence l1 (x :: l2)
| subseq_keep (x : A) (l1 l2 : list A) : subsequence l1 l2 -> subsequence (x :: l1) (x :: l2).

(** Ascending by timestamp. *)
Definition chronological (ts : list timestamp_value) : Prop :=
  StronglySorted Z.le ts.

(** The IEEE 754 classes of a float, on its specification. *)
Definition sf_is_number (x : spec_float) : bool :=
  match x with S754_nan => false | _ => true end.

Definition sf_is_finite (x : spec_float) : bool :=
  match x with S754_zero _ | S754_finite _ _ _ => true | _ => false end.

(** [chronological], decided. *)
Fixpoint chronological_b (ts : list timestamp_value) : bool :=
  match ts with
  | [] => true
  | t :: ts' => forallb (Z.leb t) ts' && chronological_b ts'
  end.


(** The labels of the [status_counts] entry of a summary, in the order in
    which the summary lists them. *)
Definition status_labels (summary : pydict) : list string :=
  match dict_get summary "status_counts" with
  | Some (PyList structs) =>
      flat_map (fun s => match s with
                         | PyDict d => match dict_get d "status" with
                                       | Some (PyStr label) => [label]
                                       | _ => []
                                       end
                         | _ => []
                         end) structs
  | _ => []
  end.

(** Alphabetical order of labels (strings compared character by
    character). *)
Definition alphabetical (labels : list string) : Prop :=
  Sorted (fun a b => String.leb a b = true) labels.

(** Counts in ascending order of their labels. *)
Definition by_label (a b : string * nat) : Prop := String.leb (fst a) (fst b) = true.

(* ===================================================================== *)
(** ** Sample data *)
(* ===================================================================== *)

(** A standard deviation for the examples: the sample variance computed in
    two passes, from left to right. It is one way in which [std] can come
    out; what the library returns can differ from it in the last digits. *)
Definition col_var (ddof : nat) (xs : list float) : option float :=
  if List.length xs <=? ddof then None
  else
    match col_mean xs with
    | None => None
    | Some m =>
        Some (float_sum (map (fun x => (x - m) * (x - m))%float xs)
              / float_of_nat (List.length xs - ddof))%float
    end.

Definition col_std (xs : list float) : option float :=
  option_map PrimFloat.sqrt (col_var 1 xs).




(** A reading as [generate_reading] makes it: 17 May 2024, 09:03:07, with
    the given microsecond, temperature and status. *)
Definition sample_time (us : N) : datetime := mkDatetime 2024 5 17 9 3 7 us.

Definition sample_draw (t : float) (st : string) : Draw :=
  mkDraw t 40%float 1010%float st.

Definition sample_reading (us : N) (t : float) (st : string) : Reading :=
  generate_reading (sample_time us) None (sample_draw t st).

(** Two clients connected to [/stream]. *)
Definition two_streams : App := run initial_app [Connect; Connect].

(** Two clients connected; the generator of the first has had one turn. *)
Definition first_started : App :=
  event_generator_next 0 (sample_time 5) (sample_draw 20%float "normal") two_streams.

(** Nine readings, one of them far from the others. *)
Definition nine_readings : list Reading :=
  map (fun i => sample_reading (N.of_nat (S i)) 20%float "normal") (seq 0 8)
  ++ [sample_reading 77 40%float "critical"].

(** A reading taken at a whole second: [microsecond = 0]. *)
Definition whole_second_reading : Reading := sample_reading 0 20%float "normal".

(** Twenty readings, nineteen at 20.0 and one at 40.0, in chronological
    order; the outlier is the twelfth. *)
Definition twenty_readings : list Reading :=
  map (fun i => sample_reading (N.of_nat (S i)) 20%float "normal") (seq 0 11)
  ++ [sample_reading 12 40%float "critical"]
  ++ map (fun i => sample_reading (N.of_nat (S i)) 20%float "warning") (seq 12 8).

(** Ten readings with the same temperature. *)
Definition ten_identical_readings : list Reading :=
  map (fun i => sample_reading (N.of_nat (S i)) 20%float "normal") (seq 0 10).

(** The z-score of the outlier of [twenty_readings]. *)
Definition outlier_zscore : float := ((40 - 21) / PrimFloat.sqrt 20)%float.

(** The frame of [twenty_readings], and of [ten_identical_readings]. *)
Definition twenty_rows : DataFrame :=
  Eval vm_compute in
    match get_sensor_dataframe twenty_readings with Ok df => df | Raise _ => [] end.

Definition ten_identical_rows : DataFrame :=
  Eval vm_compute in
    match get_sensor_dataframe ten_identical_readings with Ok df => df | Raise _ => [] end.



(** A reading made on 17 May 2024 at 09:03 and [sec] seconds, half a second
    past the whole second. *)
Definition reading_at (sec : nat) (t : float) : Reading :=
  generate_reading (mkDatetime 2024 5 17 9 3 (N.of_nat sec) 500000) None
                   (sample_draw t "normal").

(** The temperatures of twenty readings: 20.0, but for the sixth, 40.0, and
    the sixteenth, 0.0. *)
Definition two_outlier_temperature (i : nat) : float :=
  if i =? 5 then 40%float else if i =? 15 then 0%float else 20%float.

(** Twenty readings made one second apart, from 09:03:00 on. *)
Definition two_outlier_readings : list Reading :=
  map (fun i => reading_at i (two_outlier_temperature i)) (seq 0 20).

Definition two_outlier_rows : DataFrame :=
  Eval vm_compute in
    match get_sensor_dataframe two_outlier_readings with Ok df => df | Raise _ => [] end.

(** The same twenty readings made one second apart, but with the clock
    ([datetime.now()] is the wall clock) set back by thirty seconds after
    the tenth: the first ten carry the seconds 30 to 39, the last ten the
    seconds 10 to 19. *)
Definition clock_set_back_readings : list Reading :=
  map (fun i => reading_at (if i <? 10 then 30 + i else i) (two_outlier_temperature i))
      (seq 0 20).

(** Two readings, the first with status [warning], the second [normal]. *)
Definition warning_then_normal : list Reading :=
  [sample_reading 1 20%float "warning"; sample_reading 2 21%float "normal"].

(* ===================================================================== *)
(** ** Python exceptions beyond the frame conversion *)
(* ===================================================================== *)

(** The charts and the start-up code can raise more than the strict
    [strptime]: what they raise is a [py_exn], what they return an
    [outcome]. *)
Inductive py_exn : Type :=
| PolarsError (e : exn)
| KeyError (key : string)
| TypeError (message : string)
| ValueError (message : string)
| OverflowError (message : string).

Inductive outcome (A : Type) : Type :=
| Returns (a : A)
| Raises (e : py_exn).
Arguments Returns {A} a.
Arguments Raises {A} e.

Definition of_result {A : Type} (r : result A) : outcome A :=
  match r with
  | Ok a => Returns a
  | Raise e => Raises (PolarsError e)
  end.

Definition and_then {A B : Type} (o : outcome A) (k : A -> outcome B) : outcome B :=
  match o with
  | Returns a => k a
  | Raises e => Raises e
  end.

Notation "x <~ o ;; k" := (and_then o (fun x => k))
  (at level 61, o at next level, right associativity).

(** A list comprehension whose element expression may raise: the elements
    are computed from left to right and the first exception ends it. *)
Fixpoint comprehension {A B : Type} (f : A -> outcome B) (l : list A) : outcome (list B) :=
  match l with
  | [] => Returns []
  | a :: l' => b <~ f a ;; bs <~ comprehension f l' ;; Returns (b :: bs)
  end.

(* ===================================================================== *)
(** ** chart_utils.py: the figures of [ChartFactory] *)
(* ===================================================================== *)

(** A figure is handed to Plotly, which renders it ([fig.to_html]); the
    HTML is determined by the traces given to the figure, which stand for
    it here. *)
Inductive Figure : Type :=
| EmptyChart (message : string)
| TimeSeriesChart (timestamps : list timestamp_value)
                  (temperatures humidities pressures : list float)
| StatusChart (labels : list string) (values : list nat) (marker_colors : list string)
| CorrelationChart (x y : list string) (z : list (list float))
| AnomalyChart (timestamps : list timestamp_value) (temperatures : list float)
               (highlighted : option (list datetime * list pyval)).

(** [self.colors] *)
Definition colors : pydict :=
  [ ("temperature", PyStr "#3B82F6");
    ("humidity", PyStr "#10B981");
    ("pressure", PyStr "#8B5CF6");
    ("normal", PyStr "#10B981");
    ("warning", PyStr "#F59E0B");
    ("critical", PyStr "#EF4444") ].

(** [self.colors.get(status, '#6B7280')], as text. *)
Definition color_of (label : string) : string :=
  match dict_get colors label with
  | Some (PyStr c) => c
  | _ => "#6B7280"
  end.

(** [.sort('status')] on the frame of [value_counts]: ascending by label,
    rows with equal labels in their former order. *)
Fixpoint insert_by_status (x : string * nat) (l : list (string * nat))
  : list (string * nat) :=
  match l with
  | [] => [x]
  | y :: l' =>
      if String.leb (fst x) (fst y) then x :: y :: l'
      else y :: insert_by_status x l'
  end.

Definition sort_by_status (l : list (string * nat)) : list (string * nat) :=
  fold_right insert_by_status [] l.

(** [df[name]] for the three numeric columns. *)
Definition float_column (df : DataFrame) (name : string) : list float :=
  if String.eqb name "temperature" then map r_temperature df
  else if String.eqb name "humidity" then map r_humidity df
  else map r_pressure df.

Definition numeric_cols : list string := ["temperature"; "humidity"; "pressure"].

Definition create_time_series_chart (df : DataFrame) : Figure :=
  if is_empty df then EmptyChart "No data available"
  else TimeSeriesChart (map r_timestamp df) (map r_temperature df)
                       (map r_humidity df) (map r_pressure df).

Section ChartFactory.
(** What the libraries decide: the group order of [value_counts] (as
    before), the Pearson correlation [pl.corr] of two columns ([None] when
    Polars gives null), and [datetime.fromisoformat] on a text. *)
Variable group_order : list string -> list string.
Variable pl_std : list float -> option float.
Variable pl_corr : list float -> list float -> option float.
Variable fromisoformat_text : string -> option datetime.

Definition create_status_distribution (df : DataFrame) : Figure :=
  if is_empty df then EmptyChart "No status data"
  else
    let status_counts := sort_by_status (value_counts group_order (map r_status df)) in
    StatusChart (map fst status_counts) (map snd status_counts)
                (map (fun vc => color_of (fst vc)) status_counts).

Definition create_correlation_heatmap (df : DataFrame) : Figure :=
  if is_empty df || (List.length df <? 2)
  then EmptyChart "Insufficient data for correlation"
  else
    let corr_data :=
      map (fun col1 =>
             map (fun col2 =>
                    if String.eqb col1 col2 then 1%float
                    else match pl_corr (float_column df col1) (float_column df col2) with
                         | None => 0%float
                         | Some correlation => correlation
                         end)
                 numeric_cols)
          numeric_cols in
    CorrelationChart numeric_cols numeric_cols corr_data.

(** [a[key]] *)
Definition subscript (a : pydict) (key : string) : outcome pyval :=
  match dict_get a key with
  | Some v => Returns v
  | None => Raises (KeyError key)
  end.

(** [datetime.fromisoformat(v)]: the argument must be a [str]. *)
Definition fromisoformat (v : pyval) : outcome datetime :=
  match v with
  | PyStr s =>
      match fromisoformat_text s with
      | Some t => Returns t
      | None => Raises (ValueError "Invalid isoformat string")
      end
  | _ => Raises (TypeError "fromisoformat: argument must be str")
  end.

Definition create_anomaly_highlights (df : DataFrame) (anomalies : list pydict)
  : outcome Figure :=
  if is_empty df then Returns (EmptyChart "No data for anomaly detection")
  else
    let timestamps := map r_timestamp df in
    let temperatures := map r_temperature df in
    match anomalies with
    | [] => Returns (AnomalyChart timestamps temperatures None)
    | _ =>
        anomaly_times <~
          comprehension (fun a => v <~ subscript a "timestamp" ;; fromisoformat v)
                        anomalies ;;
        anomaly_temps <~
          comprehension (fun a => subscript a "temperature") anomalies ;;
        Returns (AnomalyChart timestamps temperatures (Some (anomaly_times, anomaly_temps)))
    end.

(* --------------------------------------------------------------------- *)
(** *** app.py: the other routes *)

Definition track_chart_generation (m : DashboardMetrics) (duration : float)
  : DashboardMetrics :=
  mkMetrics (connection_count m) (chart_generation_times m ++ [duration]) (total_requests m).

Definition track_request (m : DashboardMetrics) : DashboardMetrics :=
  mkMetrics (connection_count m) (chart_generation_times m) (total_requests m + 1).

Definition with_metrics (app : App) (m : DashboardMetrics) : App :=
  mkApp (recent_readings app) m (streams app).

(** The context given to the template [charts.html]. *)
Record ChartsContext : Type := mkChartsContext {
  chart_timeseries : Figure;
  chart_status : Figure;
  chart_correlation : Figure;
  chart_anomalies : Figure;
  stats : pydict;
  anomaly_count : nat
}.

(** [GET /charts]; [duration] is [time.time() - start_time] at the end of
    the request. An exception is logged and raised again; the duration is
    recorded only when the charts were made. *)
Definition get_charts (duration : float) (app : App) : App * outcome ChartsContext :=
  let m := track_request (metrics app) in
  let body :=
    df <~ of_result (get_sensor_dataframe (recent_readings app)) ;;
    anomalies <~ of_result (detect_anomalies pl_std (recent_readings app)) ;;
    let timeseries := create_time_series_chart df in
    let status := create_status_distribution df in
    let correlation := create_correlation_heatmap df in
    highlights <~ create_anomaly_highlights df anomalies ;;
    summary <~ of_result (get_statistical_summary group_order pl_std (recent_readings app)) ;;
    Returns (mkChartsContext timeseries status correlation highlights summary
                             (List.length anomalies)) in
  match body with
  | Returns context => (with_metrics app (track_chart_generation m duration), Returns context)
  | Raises e => (with_metrics app m, Raises e)
  end.
End ChartFactory.

(** [GET /sensor-data]: the latest reading, [recent_readings[-1]], or [None]
    when the deque is empty. *)
Definition get_sensor_data (app : App) : App * option Reading :=
  (with_metrics app (track_request (metrics app)),
   match recent_readings app with
   | [] => None
   | r :: rest => Some (last rest r)
   end).

(** Python's [max] of a non-empty list of floats: the first element that no
    later element exceeds. *)
Definition py_max (x : float) (xs : list float) : float :=
  fold_left (fun best y => if (best <? y)%float then y else best) xs x.

Section Monitoring.
(** Python's [sum] of a list of floats; how it rounds depends on the
    version of the interpreter. *)
Variable py_sum : list float -> float.

(** [GET /health]; [now] is [datetime.now()]. *)
Definition health_check (now : datetime) (app : App) : App * pydict :=
  let m := track_request (metrics app) in
  let health_data :=
    [ ("status", PyStr "healthy");
      ("readings_count", PyInt (Z.of_nat (List.length (recent_readings app))));
      ("active_connections", PyInt (connection_count m));
      ("total_requests", PyInt (total_requests m));
      ("timestamp", PyStr (isoformat now)) ] in
  (with_metrics app m,
   match chart_generation_times m with
   | [] => health_data
   | _ :: _ =>
       let recent_times := lastn 10 (chart_generation_times m) in
       health_data ++
       [ ("avg_chart_generation_time",
          PyFloat (py_sum recent_times / float_of_nat (List.length recent_times)));
         ("max_chart_generation_time",
          match recent_times with
          | [] => PyNone
          | t :: ts => PyFloat (py_max t ts)
          end) ]
   end).

(** [GET /metrics] *)
Definition get_metrics (now : datetime) (app : App) : App * pydict :=
  let m := track_request (metrics app) in
  let times := chart_generation_times m in
  (with_metrics app m,
   [ ("connections",
      PyDict [ ("active", PyInt (connection_count m));
               ("total_requests", PyInt (total_requests m)) ]);
     ("data",
      PyDict [ ("readings_stored", PyInt (Z.of_nat (List.length (recent_readings app))));
               ("latest_reading_time",
                match recent_readings app with
                | [] => PyNone
                | r :: rest => PyStr (timestamp (last rest r))
                end) ]);
     ("performance",
      PyDict [ ("chart_generations", PyInt (Z.of_nat (List.length times)));
               ("avg_chart_time",
                match times with
                | [] => PyInt 0
                | _ :: _ => PyFloat (py_sum times / float_of_nat (List.length times))
                end);
               ("slow_chart_count",
                PyInt (Z.of_nat (List.length (filter (fun t => (1 <? t)%float) times)))) ]);
     ("timestamp", PyStr (isoformat now)) ]).
End Monitoring.

(* ===================================================================== *)
(** ** Sample states *)
(* ===================================================================== *)

(** The application state with the given deque, no stream and fresh
    metrics. *)
Definition app_holding (recent : list Reading) : App :=
  mkApp recent (mkMetrics 0 [] 0) [].

(** Choices for what the libraries decide, for the examples. *)
Definition no_corr (_ _ : list float) : option float := None.
Definition no_text_datetime (_ : string) : option datetime := None.


(* ===================================================================== *)
(** ** app.py: all the routes together *)
(* ===================================================================== *)

(** [GET /]: the request is counted and the page is rendered. *)
Definition dashboard (app : App) : App :=
  with_metrics app (track_request (metrics app)).

(** What can happen to the application: something on a stream, or a
    request to one of the other routes. *)
Inductive request : Type :=
| OnStream (a : action)
| GetDashboard
| GetCharts (duration : float)
| GetSensorData
| GetHealth (now : datetime)
| GetMetrics (now : datetime).

Section Server.
Variable group_order : list string -> list string.
Variable pl_std : list float -> option float.
Variable pl_corr : list float -> list float -> option float.
Variable fromisoformat_text : string -> option datetime.
Variable py_sum : list float -> float.

(** The state after a request. *)
Definition serve (app : App) (req : request) : App :=
  match req with
  | OnStream a => step app a
  | GetDashboard => dashboard app
  | GetCharts duration => fst (get_charts group_order pl_std pl_corr fromisoformat_text duration app)
  | GetSensorData => fst (get_sensor_data app)
  | GetHealth now => fst (health_check py_sum now app)
  | GetMetrics now => fst (get_metrics py_sum now app)
  end.

Definition serve_all (app : App) (reqs : list request) : App := fold_left serve reqs app.
End Server.

Definition has_not_ended (s : Stream) : bool :=
  match gen s with Finished => false | _ => true end.

(** The number of generators that have not ended. *)
Definition open_streams (app : App) : nat :=
  List.length (filter has_not_ended (streams app)).

(** The requests that [track_request] counts: all but those on a stream. *)
Definition is_counted (req : request) : bool :=
  match req with OnStream _ => false | _ => true end.

(** The reading that an action makes, if any: a turn of a generator that
    has not ended makes one. *)
Definition reading_of (app : App) (a : action) : list Reading :=
  match a with
  | Next i now d =>
      match nth_error (streams app) i with
      | Some (mkStream Finished _) | None => []
      | Some _ => [generate_reading now None d]
      end
  | _ => []
  end.

(** The readings made in a run, in order. *)
Fixpoint generated (app : App) (actions : list action) : list Reading :=
  match actions with
  | [] => []
  | a :: rest => reading_of app a ++ generated (step app a) rest
  end.

(** The readings made in a run by the generator of stream [j]. *)
Fixpoint generated_by (j : nat) (app : App) (actions : list action) : list Reading :=
  match actions with
  | [] => []
  | a :: rest =>
      (match a with
       | Next i _ _ => if i =? j then reading_of app a else []
       | _ => []
       end) ++ generated_by j (step app a) rest
  end.

(** What stream [j] has been sent; nothing if there is no such stream. *)
Definition sent_to (app : App) (j : nat) : list SseEvent :=
  match nth_error (streams app) j with
  | Some s => sent s
  | None => []
  end.

(* ===================================================================== *)
(** ** Notions for the round trip of timestamps *)
(* ===================================================================== *)

(** The [w] low decimal digits of [n], most significant first. *)
Fixpoint decimal_digits (w : nat) (n : N) : list N :=
  match w with
  | 0 => []
  | S w' => decimal_digits w' (n / 10)%N ++ [(n mod 10)%N]
  end.

(** The number that a list of digits writes. *)
Definition digits_value (ds : list N) : N :=
  fold_left (fun acc d => 10 * acc + d)%N ds 0%N.

(** The fields of a [datetime] are in the ranges of a time of day and of a
    day of a month, and the year has at most four digits. *)
Definition datetime_in_range (t : datetime) : bool :=
  ((year t <=? 9999) && (1 <=? month t) && (month t <=? 12) &&
   (1 <=? day t) && (day t <=? 31) &&
   (hour t <=? 23) && (minute t <=? 59) && (second t <=? 59) &&
   (microsecond t <=? 999999))%N.

(* ===================================================================== *)
(** ** datetime arithmetic *)
(* ===================================================================== *)

(** [datetime] and [timedelta] of the standard library, as far as
    [_initialize_history] uses them: a datetime minus and plus a timedelta
    of whole minutes and seconds. *)

(** A [timedelta], normalised: [0 <= seconds < 86400] and
    [0 <= microseconds < 1000000]. *)
Record timedelta : Type := mkTimedelta {
  td_days : Z;
  td_seconds : Z;
  td_microseconds : Z
}.

(** [timedelta(days, seconds, microseconds)] for integer arguments (the
    bound of 999999999 days on a timedelta is far from what the code can
    reach and is left out). *)
Definition timedelta_new (days seconds microseconds : Z) : timedelta :=
  let s := (seconds + microseconds / 1000000)%Z in
  mkTimedelta (days + s / 86400)%Z (s mod 86400)%Z (microseconds mod 1000000)%Z.

Definition timedelta_minutes (m : Z) : timedelta := timedelta_new 0 (m * 60) 0.
Definition timedelta_seconds (s : Z) : timedelta := timedelta_new 0 s 0.

Definition timedelta_neg (d : timedelta) : timedelta :=
  timedelta_new (- td_days d) (- td_seconds d) (- td_microseconds d).

Definition toordinal (t : datetime) : Z :=
  ymd2ord (Z.of_N (year t)) (Z.of_N (month t)) (Z.of_N (day t)).

(** [t + d] *)
Definition datetime_add (t : datetime) (d : timedelta) : outcome datetime :=
  let delta :=
    timedelta_new
      (toordinal t + td_days d)
      (Z.of_N (hour t) * 3600 + Z.of_N (minute t) * 60 + Z.of_N (second t) + td_seconds d)
      (Z.of_N (microsecond t) + td_microseconds d) in
  let hour' := (td_seconds delta / 3600)%Z in
  let rem := (td_seconds delta mod 3600)%Z in
  let minute' := (rem / 60)%Z in
  let second' := (rem mod 60)%Z in
  if ((0 <? td_days delta) && (td_days delta <=? MAXORDINAL))%Z then
    let '(y, m, dd) := ord2ymd (td_days delta) in
    Returns (mkDatetime (Z.to_N y) (Z.to_N m) (Z.to_N dd)
                        (Z.to_N hour') (Z.to_N minute') (Z.to_N second')
                        (Z.to_N (td_microseconds delta)))
  else Raises (OverflowError "date value out of range").

(** [t - d] is [t + -d]. *)
Definition datetime_sub (t : datetime) (d : timedelta) : outcome datetime :=
  datetime_add t (timedelta_neg d).

(* ===================================================================== *)
(** ** utils.py: the history at start-up *)
(* ===================================================================== *)

(** [SensorData._initialize_history()], which [SensorData()] runs: fifty
    readings, twelve seconds apart, the first ten minutes before [now]; the
    [i]th reading takes the draws [draws i]. *)
Definition initialize_history (now : datetime) (draws : nat -> Draw)
    (recent_readings : list Reading) : outcome (list Reading) :=
  base_time <~ datetime_sub now (timedelta_minutes 10) ;;
  history <~
    comprehension
      (fun i =>
         ts <~ datetime_add base_time (timedelta_seconds (Z.of_nat i * 12)) ;;
         Returns (generate_reading now (Some ts) (draws i)))
      (seq 0 50) ;;
  Returns (recent_readings_extend recent_readings history).

(** The application as the module [app] leaves it once imported:
    [sensor = SensorData()] has filled the deque. *)
Definition startup (now : datetime) (draws : nat -> Draw) : outcome App :=
  history <~ initialize_history now draws recent_readings_empty ;;
  Returns (mkApp history (mkMetrics 0 [] 0) []).

(* ===================================================================== *)
(** ** Notions for the start-up *)
(* ===================================================================== *)

(** The seconds of a datetime since midnight. *)
Definition seconds_of_day (t : datetime) : Z :=
  (Z.of_N (hour t) * 3600 + Z.of_N (minute t) * 60 + Z.of_N (second t))%Z.

(** The whole seconds from the start of day 0 of the proleptic calendar to
    [t]: [t.toordinal() * 86400] and the seconds since midnight. *)
Definition elapsed_seconds (t : datetime) : Z :=
  (toordinal t * 86400 + seconds_of_day t)%Z.

(** What the constructor of [datetime] checks: the year is at least 1 and
    the day exists in the month, besides the ranges of the fields. *)
Definition datetime_valid (t : datetime) : bool :=
  datetime_in_range t && (1 <=? year t)%N
  && (Z.of_N (day t) <=? days_in_month (Z.of_N (year t)) (Z.of_N (month t)))%Z.

(** The cell that the frame holds for a reading made at [t] off the whole
    second: the whole seconds of [t] since the epoch, and of the microsecond
    of [t] its thousandth part only, because the six digits that [isoformat]
    writes are read by [%f] as nanoseconds. *)
Definition timestamp_of (t : datetime) : timestamp_value :=
  ((elapsed_seconds t - EPOCH_ORDINAL * 86400) * 1000000
   + Z.of_N (microsecond t) / 1000)%Z.

(* ===================================================================== *)
(** ** The log of chart timings *)
(* ===================================================================== *)

Section ChartLog.
Variable group_order : list string -> list string.
Variable pl_std : list float -> option float.
Variable pl_corr : list float -> list float -> option float.
Variable fromisoformat_text : string -> option datetime.
Variable py_sum : list float -> float.

(** The duration that a request adds to [chart_generation_times]: that of
    a [GET /charts] that returns. *)
Definition chart_made (app : App) (req : request) : list float :=
  match req with
  | GetCharts duration =>
      match snd (get_charts group_order pl_std pl_corr fromisoformat_text duration app) with
      | Returns _ => [duration]
      | Raises _ => []
      end
  | _ => []
  end.

(** The durations of the [GET /charts] requests of a run that returned, in
    order. *)
Fixpoint charts_made (app : App) (reqs : list request) : list float :=
  match reqs with
  | [] => []
  | req :: rest =>
      chart_made app req
      ++ charts_made (serve group_order pl_std pl_corr fromisoformat_text py_sum app req) rest
  end.
End ChartLog.

(* ===================================================================== *)
(** * Properties *)
(* ===================================================================== *)

(** ** The rolling buffer *)

Section DequeFacts.
Context {A : Type}.
Variable maxlen : nat.

Lemma deque_append_length (d : list A) (x : A) :
  List.length d <= maxlen -> List.length (deque_append maxlen d x) <= maxlen.
Proof.
  intros H. unfold deque_append.
  destruct (Nat.ltb_spec maxlen (List.length (d ++ [x]))) as [Hlt | Hle].
  - destruct d as [| y d']; simpl in *.
    + lia.
    + rewrite length_app in *. simpl in *. lia.
  - exact Hle.
Qed.

Lemma deque_append_lastn (d : list A) (x : A) :
  List.length d <= maxlen -> deque_append maxlen d x = lastn maxlen (d ++ [x]).
Proof.
  intros H. unfold deque_append, lastn.
  destruct (Nat.ltb_spec maxlen (List.length (d ++ [x]))) as [Hlt | Hle].
  - rewrite length_app in *. simpl in *.
    replace (List.length d + 1 - maxlen) with 1 by lia.
    destruct d; reflexivity.
  - replace (List.length (d ++ [x]) - maxlen) with 0 by lia. reflexivity.
Qed.

Lemma lastn_length (n : nat) (l : list A) : List.length (lastn n l) <= n.
Proof. unfold lastn. rewrite length_skipn. lia. Qed.

Lemma lastn_app_one (l : list A) (x : A) :
  lastn maxlen (lastn maxlen l ++ [x]) = lastn maxlen (l ++ [x]).
Proof.
  unfold lastn. rewrite !length_app, length_skipn. simpl.
  destruct (Nat.le_gt_cases (List.length l) maxlen) as [Hle | Hgt].
  - replace (List.length l - maxlen) with 0 by lia. simpl.
    replace (List.length l - 0) with (List.length l) by lia. reflexivity.
  - destruct (Nat.eq_dec maxlen 0) as [Hz | Hnz].
    + subst maxlen. rewrite !Nat.sub_0_r, Nat.sub_diag.
      rewrite skipn_all. simpl.
      rewrite skipn_all2 by (rewrite length_app; simpl; lia). reflexivity.
    + replace (List.length l - (List.length l - maxlen) + 1 - maxlen) with 1 by lia.
      replace (List.length l + 1 - maxlen) with (S (List.length l - maxlen)) by lia.
      rewrite (skipn_app (S (List.length l - maxlen)) l [x]).
      replace (S (List.length l - maxlen) - List.length l) with 0 by lia.
      rewrite (skipn_app 1 (skipn (List.length l - maxlen) l) [x]).
      rewrite length_skipn.
      replace (1 - (List.length l - (List.length l - maxlen))) with 0 by lia.
      rewrite skipn_skipn. simpl. reflexivity.
Qed.

Lemma lastn_lastn_app (l ys : list A) :
  lastn maxlen (lastn maxlen l ++ ys) = lastn maxlen (l ++ ys).
Proof.
  induction ys as [| y ys IH] using rev_ind.
  - rewrite !app_nil_r. unfold lastn at 1.
    pose proof (lastn_length maxlen l).
    replace (List.length (lastn maxlen l) - maxlen) with 0 by lia.
    reflexivity.
  - rewrite !app_assoc. rewrite <- lastn_app_one. rewrite IH.
    apply lastn_app_one.
Qed.

Lemma deque_extend_lastn (xs d : list A) :
  List.length d <= maxlen ->
  deque_extend maxlen d xs = lastn maxlen (d ++ xs).
Proof.
  revert d. induction xs as [| x xs IH]; intros d H.
  - simpl. rewrite app_nil_r. unfold lastn.
    replace (List.length d - maxlen) with 0 by lia. reflexivity.
  - unfold deque_extend in *. simpl.
    rewrite IH by (apply deque_append_length; exact H).
    rewrite deque_append_lastn by exact H.
    rewrite lastn_lastn_app, <- app_assoc. reflexivity.
Qed.

Lemma deque_append_full (d : list A) (x : A) :
  0 < maxlen -> List.length d = maxlen -> deque_append maxlen d x = tl d ++ [x].
Proof.
  intros Hpos H. unfold deque_append. rewrite length_app. simpl.
  destruct (Nat.ltb_spec maxlen (List.length d + 1)); [| lia].
  destruct d; simpl in *; [lia | reflexivity].
Qed.
End DequeFacts.

(** C1. After any sequence of [append] calls on [recent_readings]
    ([deque(maxlen=100)], empty at first), the deque holds at most 100
    readings and they are exactly the last 100 readings appended (all of
    them when fewer were appended), in the order of insertion; an append to a
    deque that holds 100 readings removes the oldest one only and puts the
    new one at the end. *)
Theorem recent_readings_rolling :
  forall appended : list Reading,
    let buffer := recent_readings_extend recent_readings_empty appended in
    List.length buffer <= 100
    /\ buffer = lastn 100 appended
    /\ (forall (full : list Reading) (r : Reading),
          List.length full = 100 ->
          recent_readings_append full r = tl full ++ [r]).
Proof.
  intros appended buffer. subst buffer.
  unfold recent_readings_extend, recent_readings_append, recent_readings_empty,
    recent_readings_maxlen.
  rewrite (deque_extend_lastn 100 appended []) by (simpl; lia).
  simpl. split; [apply lastn_length | split; [reflexivity |]].
  intros full r H. apply deque_append_full; [lia | exact H].
Qed.

(** ** The /stream route *)

Lemma nth_error_list_update_eq {A : Type} (l : list A) (i : nat) (x y : A) :
  nth_error l i = Some y -> nth_error (list_update i x l) i = Some x.
Proof.
  revert i. induction l as [| z l IH]; intros [| i] H; simpl in *;
    try discriminate; auto.
Qed.

Lemma nth_error_list_update_neq {A : Type} (l : list A) (i j : nat) (x : A) :
  j <> i -> nth_error (list_update i x l) j = nth_error l j.
Proof.
  revert i j. induction l as [| z l IH]; intros [| i] [| j] H; simpl;
    try reflexivity; try congruence.
  apply IH. congruence.
Qed.

Lemma event_generator_next_open (app : App) (i : nat) (now : datetime) (d : Draw)
    (g : generator_state) (out : list SseEvent) :
  nth_error (streams app) i = Some (mkStream g out) ->
  g <> Finished ->
  event_generator_next i now d app =
    mkApp (recent_readings_append (recent_readings app) (generate_reading now None d))
          (metrics app)
          (list_update i
             (mkStream Running (out ++ [mkEvent "sensor_update" (generate_reading now None d)]))
             (streams app)).
Proof.
  intros H Hg. unfold event_generator_next. rewrite H.
  destruct g; [reflexivity | reflexivity | congruence].
Qed.

Lemma event_generator_throw_open (app : App) (i : nat) (e : interruption)
    (g : generator_state) (out : list SseEvent) :
  nth_error (streams app) i = Some (mkStream g out) ->
  g <> Finished ->
  event_generator_throw i e app =
    mkApp (recent_readings app)
          (if handler_runs g e then track_disconnection (metrics app) else metrics app)
          (list_update i (mkStream Finished out) (streams app)).
Proof.
  intros H Hg. unfold event_generator_throw. rewrite H.
  destruct g; [reflexivity | reflexivity | congruence].
Qed.

(** C2, as the code has it. A reading generated by one turn of the
    generator of an open stream [i] is appended to the shared deque and sent
    to stream [i], and to no other stream: the other streams are left as
    they were. An exception raised into the generator of stream [i] ends
    that generator only and leaves the deque and the other streams as they
    were; every other open stream still gets the reading of its own next
    turn. The connection count is decremented (not below 0) when a handler
    runs, that is, when the generator has had a turn and the exception is
    [CancelledError] or an [Exception]; it stays as it is when the generator
    had not started or is closed with [GeneratorExit]. *)
Theorem stream_delivery_isolated :
  forall (app : App) (i : nat) (now : datetime) (d : Draw)
         (g : generator_state) (out : list SseEvent),
    nth_error (streams app) i = Some (mkStream g out) ->
    g <> Finished ->
    let r := generate_reading now None d in
    let app' := event_generator_next i now d app in
    recent_readings app' = recent_readings_append (recent_readings app) r
    /\ nth_error (streams app') i = Some (mkStream Running (out ++ [mkEvent "sensor_update" r]))
    /\ (forall j, j <> i -> nth_error (streams app') j = nth_error (streams app) j)
    /\ (forall e : interruption,
          let app'' := event_generator_throw i e app in
          nth_error (streams app'') i = Some (mkStream Finished out)
          /\ recent_readings app'' = recent_readings app
          /\ connection_count (metrics app'')
             = (if handler_runs g e then Z.max 0 (connection_count (metrics app) - 1)
                else connection_count (metrics app))
          /\ (forall j, j <> i -> nth_error (streams app'') j = nth_error (streams app) j)
          /\ (forall j now' d', j <> i -> is_open app j ->
                was_sent (event_generator_next j now' d' app'') j
                         (mkEvent "sensor_update" (generate_reading now' None d')))).
Proof.
  intros app i now d g out H Hg r app'. subst r app'.
  rewrite (event_generator_next_open app i now d g out H Hg). simpl.
  split; [reflexivity |].
  split; [eapply nth_error_list_update_eq; exact H |].
  split; [intros j Hj; apply nth_error_list_update_neq; exact Hj |].
  intros e. cbv zeta.
  rewrite (event_generator_throw_open app i e g out H Hg). simpl.
  split; [eapply nth_error_list_update_eq; exact H |].
  split; [reflexivity |].
  split; [destruct (handler_runs g e); reflexivity |].
  split; [intros j Hj; apply nth_error_list_update_neq; exact Hj |].
  intros j now' d' Hj (gj & outj & Hopen & Hgj).
  set (app'' := mkApp (recent_readings app)
                  (if handler_runs g e then track_disconnection (metrics app)
                   else metrics app)
                  (list_update i (mkStream Finished out) (streams app))).
  assert (Hj' : nth_error (streams app'') j = Some (mkStream gj outj)).
  { simpl. rewrite nth_error_list_update_neq by exact Hj. exact Hopen. }
  rewrite (event_generator_next_open app'' j now' d' gj outj Hj' Hgj).
  eexists. split.
  - simpl. eapply nth_error_list_update_eq.
    rewrite nth_error_list_update_neq by exact Hj. exact Hopen.
  - simpl. apply in_or_app. right. left. reflexivity.
Qed.

Lemma stream_delivery_isolated_witness :
  nth_error (streams first_started) 0
  = Some (mkStream Running [mkEvent "sensor_update" (sample_reading 5 20%float "normal")])
  /\ connection_count (metrics first_started) = 2%Z
  /\ connection_count (metrics (event_generator_throw 0 Cancelled first_started)) = 1%Z
  /\ nth_error (streams (event_generator_throw 0 Cancelled first_started)) 1
     = nth_error (streams first_started) 1.
Proof.
  split; [reflexivity |]. split; [reflexivity |].
  pose proof (stream_delivery_isolated first_started 0 (sample_time 6)
                (sample_draw 20%float "normal") Running
                [mkEvent "sensor_update" (sample_reading 5 20%float "normal")] eq_refl
                ltac:(discriminate)) as H.
  cbv zeta in H. destruct H as (_ & _ & _ & H).
  destruct (H Cancelled) as (_ & _ & Hcount & Hothers & _).
  split; [exact Hcount |].
  apply Hothers. discriminate.
Defined.

(** C2, as the spec has it, fails: with two open streams, the reading
    generated by a turn of the first stream's generator is sent to the first
    stream and not to the second. *)
Lemma reading_not_sent_to_other_stream :
  let r := sample_reading 5 20%float "normal" in
  let app' := event_generator_next 0 (sample_time 5) (sample_draw 20%float "normal") two_streams in
  is_open two_streams 0
  /\ is_open two_streams 1
  /\ was_sent app' 0 (mkEvent "sensor_update" r)
  /\ ~ was_sent app' 1 (mkEvent "sensor_update" r).
Proof.
  cbv zeta. split; [exists Created, []; split; [reflexivity | discriminate] |].
  split; [exists Created, []; split; [reflexivity | discriminate] |].
  split.
  - eexists. split; [reflexivity |]. left. reflexivity.
  - intros [s [Hs Hin]]. cbv in Hs. injection Hs as <-. exact Hin.
Qed.

(** ** The error monad *)

Lemma mapM_ok_inv {A B : Type} (f : A -> result B) (a : A) (l : list A) (bs : list B) :
  mapM f (a :: l) = Ok bs ->
  exists b bs', f a = Ok b /\ mapM f l = Ok bs' /\ bs = b :: bs'.
Proof.
  simpl. destruct (f a) as [b | e]; simpl; [| discriminate].
  destruct (mapM f l) as [bs' | e]; simpl; [| discriminate].
  intros H. injection H as <-. eauto.
Qed.

Lemma mapM_ok_Forall2 {A B : Type} (f : A -> result B) (l : list A) (bs : list B) :
  mapM f l = Ok bs -> Forall2 (fun a b => f a = Ok b) l bs.
Proof.
  revert bs. induction l as [| a l IH]; intros bs H.
  - simpl in H. injection H as <-. constructor.
  - apply mapM_ok_inv in H. destruct H as (b & bs' & Hb & Hl & ->).
    constructor; auto.
Qed.

Lemma mapM_ok_length {A B : Type} (f : A -> result B) (l : list A) (bs : list B) :
  mapM f l = Ok bs -> List.length bs = List.length l.
Proof.
  intros H. apply mapM_ok_Forall2 in H. symmetry. eapply Forall2_length. exact H.
Qed.

Lemma mapM_ok_each {A B : Type} (f : A -> result B) (l : list A) (bs : list B) (a : A) :
  mapM f l = Ok bs -> In a l -> exists b, f a = Ok b.
Proof.
  intros H Hin. apply mapM_ok_Forall2 in H.
  induction H as [| a' b' l' bs' Hab _ IH]; [contradiction |].
  destruct Hin as [<- | Hin]; eauto.
Qed.

Lemma mapM_map {A B : Type} (f : A -> result B) (g : A -> B) (l : list A) :
  (forall a, In a l -> f a = Ok (g a)) -> mapM f l = Ok (map g l).
Proof.
  induction l as [| a l IH]; intros H; simpl; [reflexivity |].
  rewrite (H a) by (left; reflexivity). simpl.
  rewrite IH by (intros a' Ha'; apply H; right; exact Ha'). reflexivity.
Qed.

(** ** Conversion of the deque to a frame *)

Lemma get_sensor_dataframe_mapM (recent : list Reading) :
  get_sensor_dataframe recent = mapM parse_row recent.
Proof. destruct recent; reflexivity. Qed.

Lemma get_sensor_dataframe_length (recent : list Reading) (df : DataFrame) :
  get_sensor_dataframe recent = Ok df -> List.length df = List.length recent.
Proof. rewrite get_sensor_dataframe_mapM. apply mapM_ok_length. Qed.

Lemma parse_row_raises (r : Reading) (e : exn) :
  parse_row r = Raise e -> e = ComputeError "timestamp".
Proof.
  unfold parse_row. destruct (strptime timestamp_format (timestamp r)); intros H;
    [discriminate | injection H as <-; reflexivity].
Qed.

Lemma get_sensor_dataframe_raises (recent : list Reading) (e : exn) :
  get_sensor_dataframe recent = Raise e -> e = ComputeError "timestamp".
Proof.
  rewrite get_sensor_dataframe_mapM.
  induction recent as [| r recent IH]; simpl; [discriminate |].
  destruct (parse_row r) as [row | e'] eqn:Hr; simpl.
  - destruct (mapM parse_row recent) as [rows | e'']; simpl; [discriminate |].
    intros H. injection H as <-. apply IH. reflexivity.
  - intros H. injection H as <-. eapply parse_row_raises. exact Hr.
Qed.

(** C9. On the empty deque [get_statistical_summary] does not raise: it
    returns the empty dict, a summary without any value in it. *)
Theorem get_statistical_summary_empty :
  forall (group_order : list string -> list string)
         (pl_std : list float -> option float),
    get_statistical_summary group_order pl_std recent_readings_empty = Ok []
    /\ (forall key, dict_get [] key = None).
Proof. intros group_order pl_std. split; [reflexivity | intros key; reflexivity]. Qed.

(** C5. For every snapshot (the frame that [get_sensor_dataframe] makes of
    the deque) with fewer than 10 rows, [detect_anomalies] returns the empty
    list, whatever the readings are; it does not raise. *)
Theorem detect_anomalies_insufficient_data :
  forall (pl_std : list float -> option float) (recent : list Reading) (df : DataFrame),
    get_sensor_dataframe recent = Ok df ->
    List.length df < 10 ->
    detect_anomalies pl_std recent = Ok [].
Proof.
  intros pl_std recent df Hdf Hlen. unfold detect_anomalies. rewrite Hdf. simpl.
  destruct (Nat.ltb_spec (List.length df) 10) as [_ | Hge]; [reflexivity | lia].
Qed.

Lemma detect_anomalies_insufficient_data_witness :
  List.length nine_readings = 9 /\ detect_anomalies col_std nine_readings = Ok [].
Proof.
  split; [reflexivity |].
  eapply (detect_anomalies_insufficient_data col_std nine_readings).
  - vm_compute. reflexivity.
  - vm_compute. lia.
Defined.

(** ** Timestamps that do not parse *)

Lemma has_fraction_cons (c : ascii) (s : string) :
  has_fraction s = true -> has_fraction (String c s) = true.
Proof. intros H. simpl. rewrite H. apply orb_true_r. Qed.

Lemma take_digits_suffix (w : nat) (s rest : string) (ds : list N) :
  take_digits w s = (ds, rest) -> has_fraction rest = true -> has_fraction s = true.
Proof.
  revert s ds. induction w as [| w IH]; intros s ds H Hrest.
  - destruct s; simpl in H; injection H as <- <-; exact Hrest.
  - destruct s as [| c s']; simpl in H.
    + injection H as <- <-. exact Hrest.
    + destruct (is_digit c).
      * destruct (take_digits w s') as [ds' rest'] eqn:Htd.
        injection H as <- <-. apply has_fraction_cons. eapply IH; eauto.
      * injection H as <- <-. exact Hrest.
Qed.

Lemma scan_number_first_digit (w : nat) (s rest : string) (n : N) :
  scan_number w s = Some (n, rest) ->
  exists c s', s = String c s' /\ is_digit c = true.
Proof.
  unfold scan_number. destruct w as [| w]; destruct s as [| c s']; simpl;
    try discriminate.
  destruct (is_digit c) eqn:Hc; [| discriminate].
  intros _. eauto.
Qed.

Lemma scan_number_suffix (w : nat) (s rest : string) (n : N) :
  scan_number w s = Some (n, rest) -> has_fraction rest = true -> has_fraction s = true.
Proof.
  unfold scan_number. destruct (take_digits w s) as [ds rest'] eqn:Htd.
  destruct ds; [discriminate |]. intros H. injection H as _ <-.
  eapply take_digits_suffix; eauto.
Qed.

Lemma parse_items_has_fraction (items : list item) :
  forall (s : string) (acc t : parsed),
    parse_items items s acc = Some t ->
    has_dot_numeric items = true ->
    has_fraction s = true.
Proof.
  induction items as [| it items IH]; intros s acc t Hparse Hdot.
  - discriminate.
  - destruct it as [c | f].
    + destruct s as [| c' s']; simpl in Hparse; [discriminate |].
      destruct (Ascii.eqb_spec c c') as [<- | Hne]; [| discriminate].
      destruct items as [| [c2 | f2] items'].
      * discriminate.
      * apply has_fraction_cons. eapply IH; eauto.
      * simpl in Hdot. apply orb_true_iff in Hdot. destruct Hdot as [Hc | Hdot].
        -- simpl in Hparse.
           destruct (scan_number (field_width f2) s') as [[n rest] |] eqn:Hscan;
             [| discriminate].
           apply scan_number_first_digit in Hscan.
           destruct Hscan as (d & s'' & -> & Hd).
           simpl. rewrite Hc, Hd. reflexivity.
        -- apply has_fraction_cons. eapply IH; eauto.
    + simpl in Hparse.
      destruct (scan_number (field_width f) s) as [[n rest] |] eqn:Hscan;
        [| discriminate].
      eapply scan_number_suffix; [exact Hscan |].
      eapply IH; [exact Hparse |].
      destruct items as [| [c2 | f2] items']; exact Hdot.
Qed.

Lemma strptime_has_fraction (s : string) (t : timestamp_value) :
  strptime timestamp_format s = Some t -> has_fraction s = true.
Proof.
  unfold strptime.
  destruct (compile_format timestamp_format) as [items |] eqn:Hfmt; [| discriminate].
  vm_compute in Hfmt. injection Hfmt as <-.
  match goal with
  | |- context [parse_items ?its s ?a] =>
      destruct (parse_items its s a) as [t' |] eqn:Hparse; [| discriminate]
  end.
  intros _. eapply parse_items_has_fraction; [exact Hparse | reflexivity].
Qed.

Lemma no_dot_no_fraction (s : string) : no_dot s = true -> has_fraction s = false.
Proof.
  induction s as [| c s IH]; simpl; [reflexivity |].
  intros H. apply andb_true_iff in H. destruct H as [Hc Hs].
  apply negb_true_iff in Hc. rewrite Hc, IH by exact Hs. reflexivity.
Qed.

Lemma no_dot_append (s1 s2 : string) :
  no_dot (String.append s1 s2) = no_dot s1 && no_dot s2.
Proof.
  induction s1 as [| c s1 IH]; simpl; [reflexivity |].
  rewrite IH. apply andb_assoc.
Qed.

Lemma digit_char_not_dot (n : N) : Ascii.eqb (digit_char n) "." = false.
Proof.
  unfold digit_char.
  assert (H : (n mod 10 < 10)%N) by (apply N.mod_lt; discriminate).
  remember (n mod 10)%N as k eqn:Hk. clear Hk.
  rewrite <- (N2Nat.id k). assert (Hk : N.to_nat k < 10) by lia.
  remember (N.to_nat k) as m eqn:Hm. clear Hm H.
  do 10 (destruct m as [| m]; [reflexivity |]). lia.
Qed.

Lemma zero_pad_no_dot (w : nat) (n : N) : no_dot (zero_pad w n) = true.
Proof.
  revert n. induction w as [| w IH]; intros n; simpl; [reflexivity |].
  rewrite no_dot_append, IH. simpl. rewrite digit_char_not_dot. reflexivity.
Qed.

Lemma no_dot_concat (parts : list string) :
  Forall (fun s => no_dot s = true) parts -> no_dot (String.concat "" parts) = true.
Proof.
  induction 1 as [| s parts Hs _ IH]; [reflexivity |].
  destruct parts as [| s' parts']; [exact Hs |].
  change (no_dot (String.append s (String.append "" (String.concat "" (s' :: parts')))) = true).
  rewrite no_dot_append, Hs. exact IH.
Qed.

Lemma isoformat_whole_second_no_fraction (t : datetime) :
  microsecond t = 0%N -> has_fraction (isoformat t) = false.
Proof.
  intros H. apply no_dot_no_fraction. unfold isoformat. rewrite H.
  apply no_dot_concat.
  repeat constructor; try apply zero_pad_no_dot.
Qed.

(** C10. [get_sensor_dataframe] returns a frame for a non-empty deque only
    if the timestamp text of every stored reading has a fractional-seconds
    part. A reading made at a whole second ([microsecond = 0], for which
    [isoformat] leaves the fraction out) makes the strict [strptime] raise:
    then [get_sensor_dataframe], [get_statistical_summary] and
    [detect_anomalies] all raise instead of returning. *)
Theorem whole_second_timestamp_raises :
  forall (recent : list Reading),
    recent <> [] ->
    (forall df, get_sensor_dataframe recent = Ok df ->
       forall r, In r recent -> has_fraction (timestamp r) = true)
    /\ (forall (r : Reading) (now : datetime) (ts : option datetime) (d : Draw)
               (group_order : list string -> list string)
               (pl_std : list float -> option float),
          In r recent ->
          r = generate_reading now ts d ->
          microsecond (match ts with None => now | Some t => t end) = 0%N ->
          get_sensor_dataframe recent = Raise (ComputeError "timestamp")
          /\ get_statistical_summary group_order pl_std recent
             = Raise (ComputeError "timestamp")
          /\ detect_anomalies pl_std recent = Raise (ComputeError "timestamp")).
Proof.
  intros recent Hne.
  assert (Hfrac : forall df, get_sensor_dataframe recent = Ok df ->
            forall r, In r recent -> has_fraction (timestamp r) = true).
  { intros df Hdf r Hin. rewrite get_sensor_dataframe_mapM in Hdf.
    destruct (mapM_ok_each _ _ _ _ Hdf Hin) as [row Hrow].
    unfold parse_row in Hrow.
    destruct (strptime timestamp_format (timestamp r)) as [t |] eqn:Ht;
      [| discriminate].
    eapply strptime_has_fraction. exact Ht. }
  split; [exact Hfrac |].
  intros r now ts d group_order pl_std Hin Hr Hus.
  assert (Hraise : get_sensor_dataframe recent = Raise (ComputeError "timestamp")).
  { destruct (get_sensor_dataframe recent) as [df | e] eqn:Hdf.
    - pose proof (Hfrac df eq_refl r Hin) as Hf.
      rewrite Hr in Hf. unfold generate_reading in Hf. cbn [timestamp] in Hf.
      rewrite isoformat_whole_second_no_fraction in Hf by exact Hus.
      discriminate.
    - f_equal. eapply get_sensor_dataframe_raises. exact Hdf. }
  split; [exact Hraise |].
  unfold get_statistical_summary, detect_anomalies. rewrite Hraise.
  split; reflexivity.
Qed.

Lemma whole_second_timestamp_raises_witness :
  [whole_second_reading] <> []
  /\ detect_anomalies col_std [whole_second_reading] = Raise (ComputeError "timestamp").
Proof.
  split; [discriminate |].
  destruct (whole_second_timestamp_raises [whole_second_reading]) as [_ H];
    [discriminate |].
  destruct (H whole_second_reading (sample_time 0) None (sample_draw 20%float "normal")
              first_seen col_std) as (_ & _ & Hd).
  - left. reflexivity.
  - reflexivity.
  - reflexivity.
  - exact Hd.
Defined.

(** ** Anomaly detection *)

Lemma detect_anomalies_enough_data (pl_std : list float -> option float)
    (recent : list Reading) (df : DataFrame) :
  get_sensor_dataframe recent = Ok df ->
  10 <= List.length df ->
  detect_anomalies pl_std recent =
    Ok (map anomaly_dict
          (filter (fun rz => is_outlier (snd rz))
             (map (fun r => (r, temp_zscore (col_mean (map r_temperature df))
                                            (pl_std (map r_temperature df)) r)) df))).
Proof.
  intros Hdf Hlen. unfold detect_anomalies. rewrite Hdf. simpl.
  destruct (Nat.ltb_spec (List.length df) 10) as [Hlt | _]; [lia | reflexivity].
Qed.

Lemma detect_anomalies_total (pl_std : list float -> option float)
    (recent : list Reading) (df : DataFrame) :
  get_sensor_dataframe recent = Ok df ->
  exists flagged : list (Row * option float),
    detect_anomalies pl_std recent = Ok (map anomaly_dict flagged)
    /\ subsequence (map fst flagged) df.
Proof.
  intros Hdf. destruct (Nat.lt_ge_cases (List.length df) 10) as [Hlt | Hge].
  - exists []. split.
    + unfold detect_anomalies. rewrite Hdf. cbn [bind].
      destruct (Nat.ltb_spec (List.length df) 10) as [_ | Hge]; [reflexivity | lia].
    + simpl. clear. induction df as [| r df IH];
        [apply subseq_nil | apply subseq_skip; exact IH].
  - eexists. split; [apply detect_anomalies_enough_data; eauto |].
    generalize (col_mean (map r_temperature df)) (pl_std (map r_temperature df)).
    intros m s. clear. induction df as [| r df IH]; simpl; [apply subseq_nil |].
    destruct (is_outlier (temp_zscore m s r)); simpl;
      [apply subseq_keep | apply subseq_skip]; exact IH.
Qed.

Lemma subsequence_map {A B : Type} (f : A -> B) (l1 l2 : list A) :
  subsequence l1 l2 -> subsequence (map f l1) (map f l2).
Proof.
  induction 1 as [| x l1 l2 _ IH | x l1 l2 _ IH]; simpl.
  - apply subseq_nil.
  - apply subseq_skip. exact IH.
  - apply subseq_keep. exact IH.
Qed.

Lemma subsequence_In {A : Type} (l1 l2 : list A) (x : A) :
  subsequence l1 l2 -> In x l1 -> In x l2.
Proof.
  induction 1 as [| y l1 l2 _ IH | y l1 l2 _ IH]; simpl; intros Hin; auto.
  destruct Hin as [-> | Hin]; auto.
Qed.

Lemma subsequence_StronglySorted {A : Type} (R : A -> A -> Prop) (l1 l2 : list A) :
  subsequence l1 l2 -> StronglySorted R l2 -> StronglySorted R l1.
Proof.
  induction 1 as [| y l1 l2 Hsub IH | y l1 l2 Hsub IH]; intros Hs.
  - constructor.
  - apply StronglySorted_inv in Hs. apply IH. apply Hs.
  - apply StronglySorted_inv in Hs. destruct Hs as [Hs Hall].
    constructor; [apply IH; exact Hs |].
    rewrite Forall_forall in *. intros x Hx. apply Hall.
    eapply subsequence_In; eauto.
Qed.

Lemma anomaly_dict_record (rz : Row * option float) :
  anomaly_dict rz
  = anomaly_record (r_timestamp (fst rz)) (r_temperature (fst rz)) (snd rz).
Proof. reflexivity. Qed.

Lemma chronological_b_sound (ts : list timestamp_value) :
  chronological_b ts = true -> chronological ts.
Proof.
  unfold chronological. induction ts as [| t ts IH]; simpl; intros H.
  - constructor.
  - apply andb_true_iff in H. destruct H as [Hall Hrest].
    constructor; [apply IH; exact Hrest |].
    rewrite forallb_forall in Hall. apply Forall_forall.
    intros x Hx. apply Z.leb_le. apply Hall. exact Hx.
Qed.

(** C8, as the code has it. For every snapshot [detect_anomalies] returns a
    list of dicts, each with exactly the keys [timestamp], [temperature] and
    [temp_zscore], in this order. Each record holds the timestamp and the
    temperature of a row of the snapshot, and the records follow the rows in
    the order of the snapshot: nothing is sorted. So the records are
    ascending by timestamp whenever the snapshot is. *)
Theorem detect_anomalies_records :
  forall (pl_std : list float -> option float) (recent : list Reading) (df : DataFrame),
    get_sensor_dataframe recent = Ok df ->
    exists (anomalies : list pydict) (flagged : list (Row * option float)),
      detect_anomalies pl_std recent = Ok anomalies
      /\ anomalies
         = map (fun rz => anomaly_record (r_timestamp (fst rz)) (r_temperature (fst rz))
                                         (snd rz))
               flagged
      /\ (forall a, In a anomalies ->
            dict_keys a = ["timestamp"; "temperature"; "temp_zscore"])
      /\ subsequence (map fst flagged) df
      /\ (chronological (map r_timestamp df) ->
          chronological (map (fun rz => r_timestamp (fst rz)) flagged)).
Proof.
  intros pl_std recent df Hdf.
  destruct (detect_anomalies_total pl_std recent df Hdf) as (flagged & Hdet & Hsub).
  exists (map anomaly_dict flagged), flagged.
  split; [exact Hdet |].
  split; [apply map_ext; intros rz; apply anomaly_dict_record |].
  split.
  { intros a Ha. apply in_map_iff in Ha. destruct Ha as (rz & <- & _). reflexivity. }
  split; [exact Hsub |].
  rewrite <- (map_map fst r_timestamp).
  unfold chronological. apply subsequence_StronglySorted.
  apply subsequence_map. exact Hsub.
Qed.

Lemma detect_anomalies_records_witness :
  get_sensor_dataframe two_outlier_readings = Ok two_outlier_rows
  /\ chronological (map r_timestamp two_outlier_rows)
  /\ exists (anomalies : list pydict) (flagged : list (Row * option float)),
       detect_anomalies col_std two_outlier_readings = Ok anomalies
       /\ anomalies
          = map (fun rz => anomaly_record (r_timestamp (fst rz)) (r_temperature (fst rz))
                                          (snd rz))
                flagged
       /\ List.length flagged = 2
       /\ chronological (map (fun rz => r_timestamp (fst rz)) flagged).
Proof.
  assert (Hdf : get_sensor_dataframe two_outlier_readings = Ok two_outlier_rows)
    by (vm_compute; reflexivity).
  assert (Hchrono : chronological (map r_timestamp two_outlier_rows))
    by (apply chronological_b_sound; vm_compute; reflexivity).
  split; [exact Hdf |]. split; [exact Hchrono |].
  destruct (detect_anomalies_records col_std two_outlier_readings two_outlier_rows Hdf)
    as (anomalies & flagged & Hdet & Hrec & _ & _ & Hsorted).
  exists anomalies, flagged.
  split; [exact Hdet |]. split; [exact Hrec |]. split; [| exact (Hsorted Hchrono)].
  assert (Hlen : List.length anomalies = 2).
  { assert (H : match detect_anomalies col_std two_outlier_readings with
                | Ok l => List.length l
                | Raise _ => 0
                end = 2) by (vm_compute; reflexivity).
    rewrite Hdet in H. exact H. }
  rewrite Hrec, length_map in Hlen. exact Hlen.
Defined.

(** C8, as the spec has it, fails twice. The third field is not [z_score]:
    the record returned for the outlier of [twenty_readings] has the keys
    [timestamp], [temperature] and [temp_zscore]. And the records are not
    sorted: when the clock was set back between two readings that are
    flagged, the record with the later timestamp comes first. *)
Lemma anomaly_records_differ_from_spec :
  (exists a : pydict,
      detect_anomalies col_std twenty_readings = Ok [a]
      /\ dict_keys a = ["timestamp"; "temperature"; "temp_zscore"]
      /\ dict_get a "z_score" = None
      /\ dict_keys a <> ["timestamp"; "temperature"; "z_score"])
  /\ (exists (t1 t2 : timestamp_value) (z1 z2 : float),
        detect_anomalies col_std clock_set_back_readings
        = Ok [anomaly_record t1 40%float (Some z1); anomaly_record t2 0%float (Some z2)]
        /\ (t2 < t1)%Z
        /\ ~ chronological [t1; t2]).
Proof.
  split.
  - eexists. split; [vm_compute; reflexivity |].
    split; [reflexivity |]. split; [reflexivity | discriminate].
  - do 4 eexists. split; [vm_compute; reflexivity |].
    split; [reflexivity |].
    intros H. apply StronglySorted_inv in H. destruct H as [_ H].
    apply Forall_inv in H. vm_compute in H. apply H. reflexivity.
Qed.

(** ** Binary64 arithmetic

    Facts about the primitive floats, from their specification
    ([FloatAxioms]): rounding a non-negative mantissa never gives a NaN, so
    a difference of finite numbers and a quotient by a finite non-zero
    number are numbers. *)

Section FloatFacts.
Local Open Scope Z_scope.






End FloatFacts.

Lemma SFcompare_refl (x : spec_float) : x <> S754_nan -> SFcompare x x = Some Eq.
Proof.
  destruct x as [s | s | | s m e]; simpl; intros H; try congruence.
  - destruct s; reflexivity.
  - rewrite Z.compare_refl, Pos.compare_cont_refl. destruct s; reflexivity.
Qed.

Lemma is_nan_spec (x : float) : is_nan x = negb (sf_is_number (Prim2SF x)).
Proof.
  unfold is_nan. rewrite FloatAxioms.eqb_spec. unfold SFeqb.
  destruct (Prim2SF x) as [s | s | | s m e] eqn:Hx; simpl; try reflexivity.
  - destruct s; reflexivity.
  - rewrite Z.compare_refl, Pos.compare_cont_refl. destruct s; reflexivity.
Qed.

Lemma is_finite_spec (x : float) : is_finite x = sf_is_finite (Prim2SF x).
Proof.
  unfold is_finite. rewrite is_nan_spec. unfold is_infinity.
  rewrite FloatAxioms.eqb_spec, FloatAxioms.abs_spec. unfold SFeqb.
  change (Prim2SF infinity) with (S754_infinity false).
  destruct (Prim2SF x) as [s | s | | s m e]; reflexivity.
Qed.







Lemma sub_diag (x : float) : is_finite x = true -> (x - x)%float = 0%float.
Proof.
  rewrite is_finite_spec. intros H. apply Prim2SF_inj. rewrite FloatAxioms.sub_spec.
  change (Prim2SF 0) with (S754_zero false). unfold SF64sub.
  destruct (Prim2SF x) as [s | s | | s m e]; try discriminate.
  - destruct s; reflexivity.
  - unfold SFsub. rewrite Z.sub_diag. reflexivity.
Qed.

(** ** The z-score rule *)











(** ** Identical values *)

(** No guard for a zero standard deviation: when the rows all have the
    temperature [v], the mean is [v] and the standard deviation is 0, every
    z-score is [0 / 0], a NaN, which Polars orders above 2, so every row is
    returned. *)
Lemma identical_temperatures_flagged (pl_std : list float -> option float)
    (recent : list Reading) (df : DataFrame) (v : float) :
  get_sensor_dataframe recent = Ok df ->
  10 <= List.length df ->
  (forall r, In r df -> r_temperature r = v) ->
  is_finite v = true ->
  col_mean (map r_temperature df) = Some v ->
  pl_std (map r_temperature df) = Some 0%float ->
  detect_anomalies pl_std recent = Ok (map (fun r => anomaly_dict (r, Some nan)) df).
Proof.
  intros Hdf Hlen Hall Hv Hmean Hstd.
  rewrite (detect_anomalies_enough_data pl_std recent df Hdf) by lia.
  rewrite Hmean, Hstd.
  f_equal.
  assert (Hz : forall r, In r df -> temp_zscore (Some v) (Some 0%float) r = Some nan).
  { intros r Hr. unfold temp_zscore. cbn [lift2].
    rewrite (Hall r Hr), sub_diag by exact Hv. reflexivity. }
  clear - Hz. induction df as [| r df IH]; [reflexivity |].
  cbn [map filter snd]. rewrite (Hz r) by (left; reflexivity).
  change (is_outlier (Some nan)) with true. cbn [map]. f_equal.
  apply IH. intros r' Hr'. apply Hz. right. exact Hr'.
Qed.

(** C6, on the code. Ten readings of temperature 20.0: the mean is 20.0,
    the standard deviation is 0, every z-score is a NaN, and
    [detect_anomalies] returns all ten readings instead of none; so it does
    with every [std] that gives 0 for these ten values. *)
Theorem identical_readings_all_flagged :
  get_sensor_dataframe ten_identical_readings = Ok ten_identical_rows
  /\ col_std (map r_temperature ten_identical_rows) = Some 0%float
  /\ detect_anomalies col_std ten_identical_readings
     = Ok (map (fun r => anomaly_dict (r, Some nan)) ten_identical_rows)
  /\ List.length ten_identical_rows = 10
  /\ (forall pl_std : list float -> option float,
        pl_std (map r_temperature ten_identical_rows) = Some 0%float ->
        detect_anomalies pl_std ten_identical_readings
        = Ok (map (fun r => anomaly_dict (r, Some nan)) ten_identical_rows)).
Proof.
  assert (Hdf : get_sensor_dataframe ten_identical_readings = Ok ten_identical_rows)
    by (vm_compute; reflexivity).
  assert (Hall : forall pl_std : list float -> option float,
             pl_std (map r_temperature ten_identical_rows) = Some 0%float ->
             detect_anomalies pl_std ten_identical_readings
             = Ok (map (fun r => anomaly_dict (r, Some nan)) ten_identical_rows)).
  { intros pl_std Hstd.
    apply (identical_temperatures_flagged pl_std _ _ 20%float Hdf).
    - vm_compute. lia.
    - intros r Hr. vm_compute in Hr.
      repeat (destruct Hr as [<- | Hr]; [reflexivity |]). contradiction.
    - reflexivity.
    - vm_compute. reflexivity.
    - exact Hstd. }
  assert (Hstd : col_std (map r_temperature ten_identical_rows) = Some 0%float)
    by (vm_compute; reflexivity).
  split; [exact Hdf |]. split; [exact Hstd |].
  split; [exact (Hall col_std Hstd) |]. split; [reflexivity | exact Hall].
Qed.

(** ** The statistical summary *)



Lemma get_statistical_summary_nonempty (group_order : list string -> list string)
    (pl_std : list float -> option float) (recent : list Reading) (df : DataFrame) :
  get_sensor_dataframe recent = Ok df ->
  df <> [] ->
  let height := List.length (group_order (map r_status df)) in
  get_statistical_summary group_order pl_std recent =
    Ok [ ("temp_mean", broadcast height (py_of_cell (col_mean (map r_temperature df))));
         ("temp_std", broadcast height (py_of_cell (pl_std (map r_temperature df))));
         ("humidity_mean", broadcast height (py_of_cell (col_mean (map r_humidity df))));
         ("humidity_std", broadcast height (py_of_cell (pl_std (map r_humidity df))));
         ("pressure_mean", broadcast height (py_of_cell (col_mean (map r_pressure df))));
         ("pressure_std", broadcast height (py_of_cell (pl_std (map r_pressure df))));
         ("status_counts",
          PyList (map status_struct (value_counts group_order (map r_status df)))) ].
Proof.
  intros Hdf Hne height. unfold get_statistical_summary. rewrite Hdf.
  destruct df as [| r df]; [congruence |].
  cbn [bind is_empty]. unfold value_counts at 1 2 3 4 5 6.
  rewrite length_map. reflexivity.
Qed.




(** ** The status counts *)

Lemma first_seen_In (col : list string) (v : string) :
  In v (first_seen col) <-> In v col.
Proof.
  induction col as [| w col IH]; simpl; [tauto |].
  rewrite filter_In, IH.
  destruct (String.eqb_spec w v) as [-> | Hne]; simpl.
  - split; [intros [H | [_ H]]; [left; exact H | discriminate] | intros _; left; reflexivity].
  - split.
    + intros [H | [H _]]; [left; exact H | right; exact H].
    + intros [H | H]; [left; exact H | right; split; [exact H | reflexivity]].
Qed.

Lemma first_seen_NoDup (col : list string) : NoDup (first_seen col).
Proof.
  induction col as [| w col IH]; simpl; constructor.
  - rewrite filter_In. intros [_ H]. rewrite String.eqb_refl in H. discriminate.
  - apply NoDup_filter. exact IH.
Qed.

Lemma first_seen_ok : group_order_ok first_seen.
Proof.
  intros col. apply NoDup_Permutation.
  - apply first_seen_NoDup.
  - apply NoDup_nodup.
  - intros v. rewrite first_seen_In, nodup_In. tauto.
Qed.

(** What the code does guarantee: the structs of [status_counts] name each
    status that occurs exactly once, with the number of rows that have
    it. *)
Lemma status_counts_cover_observed (group_order : list string -> list string)
    (pl_std : list float -> option float) (recent : list Reading) (df : DataFrame) :
  group_order_ok group_order ->
  get_sensor_dataframe recent = Ok df ->
  df <> [] ->
  exists (summary : pydict) (counts : list (string * nat)),
    get_statistical_summary group_order pl_std recent = Ok summary
    /\ dict_get summary "status_counts" = Some (PyList (map status_struct counts))
    /\ NoDup (map fst counts)
    /\ forall (label : string) (c : nat),
         In (label, c) counts <->
         In label (map r_status df) /\ c = count_occ string_dec (map r_status df) label.
Proof.
  intros Hok Hdf Hne.
  eexists. exists (value_counts group_order (map r_status df)).
  split; [apply (get_statistical_summary_nonempty group_order pl_std recent df Hdf Hne) |].
  split; [reflexivity |].
  pose proof (Hok (map r_status df)) as Hperm.
  unfold value_counts. split.
  - rewrite map_map. simpl. rewrite map_id.
    apply (Permutation_NoDup (Permutation_sym Hperm)). apply NoDup_nodup.
  - intros label c. rewrite in_map_iff. split.
    + intros (v & Hv & Hin). injection Hv as -> <-. split; [| reflexivity].
      apply (Permutation_in _ Hperm) in Hin. apply nodup_In in Hin. exact Hin.
    + intros [Hin ->]. exists label. split; [reflexivity |].
      apply (Permutation_in _ (Permutation_sym Hperm)). apply nodup_In. exact Hin.
Qed.

(** C7, on the code. [get_statistical_summary] does not sort the status
    counts: they come in the order in which [value_counts] yields the
    groups, which the library leaves open. With the order of first
    occurrence and a deque whose two readings have the statuses [warning]
    and [normal], the summary lists [warning] before [normal]. *)
Theorem status_counts_not_sorted :
  group_order_ok first_seen
  /\ forall pl_std : list float -> option float,
       exists summary : pydict,
         get_statistical_summary first_seen pl_std warning_then_normal = Ok summary
         /\ dict_get summary "status_counts"
            = Some (PyList [ PyDict [("status", PyStr "warning"); ("count", PyInt 1)];
                             PyDict [("status", PyStr "normal"); ("count", PyInt 1)] ])
         /\ status_labels summary = ["warning"; "normal"]
         /\ ~ alphabetical (status_labels summary).
Proof.
  split; [exact first_seen_ok |]. intros pl_std.
  eexists. split; [vm_compute; reflexivity |].
  split; [reflexivity |]. split; [reflexivity |].
  intros Hsorted. change (alphabetical ["warning"; "normal"]) in Hsorted.
  unfold alphabetical in Hsorted.
  apply Sorted_inv in Hsorted. destruct Hsorted as [_ Hhd].
  apply HdRel_inv in Hhd. vm_compute in Hhd. discriminate.
Qed.


(* ===================================================================== *)
(** * Further properties *)
(* ===================================================================== *)

(** ** GET /charts *)

Lemma get_statistical_summary_total (group_order : list string -> list string)
    (pl_std : list float -> option float) (recent : list Reading) (df : DataFrame) :
  get_sensor_dataframe recent = Ok df ->
  exists summary, get_statistical_summary group_order pl_std recent = Ok summary.
Proof.
  intros Hdf. unfold get_statistical_summary. rewrite Hdf. cbn [bind].
  destruct (is_empty df); eauto.
Qed.

Lemma detect_anomalies_none_when_few (pl_std : list float -> option float)
    (recent : list Reading) (df : DataFrame) (anomalies : list pydict) :
  get_sensor_dataframe recent = Ok df ->
  detect_anomalies pl_std recent = Ok anomalies ->
  anomalies <> [] ->
  10 <= List.length df.
Proof.
  intros Hdf Hdet Hne.
  destruct (Nat.lt_ge_cases (List.length df) 10) as [Hlt | Hge]; [| exact Hge].
  unfold detect_anomalies in Hdet. rewrite Hdf in Hdet. cbn [bind] in Hdet.
  destruct (Nat.ltb_spec (List.length df) 10) as [_ | Hge]; [| lia].
  injection Hdet as <-. congruence.
Qed.

Section ChartRoute.
Variable group_order : list string -> list string.
Variable pl_std : list float -> option float.
Variable pl_corr : list float -> list float -> option float.
Variable fromisoformat_text : string -> option datetime.

(** Every record of [detect_anomalies] carries a parsed datetime under
    [timestamp], and [create_anomaly_highlights] passes it to
    [datetime.fromisoformat], which takes text only: with a non-empty frame
    and at least one such record the chart cannot be made. *)
Lemma create_anomaly_highlights_raises (df : DataFrame)
    (flagged : list (Row * option float)) :
  df <> [] ->
  flagged <> [] ->
  create_anomaly_highlights fromisoformat_text df (map anomaly_dict flagged)
  = Raises (TypeError "fromisoformat: argument must be str").
Proof.
  intros Hdf Hfl. unfold create_anomaly_highlights.
  destruct df as [| r df]; [congruence |]. cbn [is_empty].
  destruct flagged as [| rz flagged]; [congruence |]. reflexivity.
Qed.

(** X1. When the deque converts to a frame and [detect_anomalies] finds at
    least one anomaly, [GET /charts] raises a TypeError: the anomaly chart
    gives the parsed timestamp of the record to [datetime.fromisoformat].
    The request is counted, no generation time is recorded, and the deque
    and the streams are left as they were. *)
Theorem get_charts_raises_on_anomalies :
  forall (duration : float) (app : App) (df : DataFrame) (anomalies : list pydict),
    get_sensor_dataframe (recent_readings app) = Ok df ->
    detect_anomalies pl_std (recent_readings app) = Ok anomalies ->
    anomalies <> [] ->
    get_charts group_order pl_std pl_corr fromisoformat_text duration app
    = (mkApp (recent_readings app)
             (mkMetrics (connection_count (metrics app))
                        (chart_generation_times (metrics app))
                        (total_requests (metrics app) + 1))
             (streams app),
       Raises (TypeError "fromisoformat: argument must be str")).
Proof.
  intros duration app df anomalies Hdf Hdet Hne.
  pose proof (detect_anomalies_none_when_few _ _ _ _ Hdf Hdet Hne) as Hlen.
  destruct (detect_anomalies_total pl_std _ _ Hdf) as (flagged & Hfl & _).
  rewrite Hdet in Hfl. injection Hfl as ->.
  unfold get_charts. rewrite Hdf, Hdet. cbn [of_result and_then].
  rewrite create_anomaly_highlights_raises.
  - reflexivity.
  - destruct df; simpl in Hlen; [lia | discriminate].
  - destruct flagged; [exfalso; apply Hne; reflexivity | discriminate].
Qed.

(** X2. When the deque converts to a frame and no anomaly is found,
    [GET /charts] returns: the four figures, the statistical summary and the
    anomaly count 0; the anomaly chart has no highlighted points; the
    request is counted and the duration is appended to the generation
    times. On the empty deque the four figures are the placeholders and the
    summary is the empty dict. *)
Theorem get_charts_returns_without_anomalies :
  forall (duration : float) (app : App) (df : DataFrame),
    get_sensor_dataframe (recent_readings app) = Ok df ->
    detect_anomalies pl_std (recent_readings app) = Ok [] ->
    exists summary : pydict,
      get_statistical_summary group_order pl_std (recent_readings app) = Ok summary
      /\ get_charts group_order pl_std pl_corr fromisoformat_text duration app
         = (mkApp (recent_readings app)
                  (mkMetrics (connection_count (metrics app))
                             (chart_generation_times (metrics app) ++ [duration])
                             (total_requests (metrics app) + 1))
                  (streams app),
            Returns
              (mkChartsContext
                 (create_time_series_chart df)
                 (create_status_distribution group_order df)
                 (create_correlation_heatmap pl_corr df)
                 (if is_empty df then EmptyChart "No data for anomaly detection"
                  else AnomalyChart (map r_timestamp df) (map r_temperature df) None)
                 summary 0))
      /\ (recent_readings app = [] ->
          summary = []
          /\ create_time_series_chart df = EmptyChart "No data available"
          /\ create_status_distribution group_order df = EmptyChart "No status data"
          /\ create_correlation_heatmap pl_corr df
             = EmptyChart "Insufficient data for correlation").
Proof.
  intros duration app df Hdf Hdet.
  destruct (get_statistical_summary_total group_order pl_std _ _ Hdf) as [summary Hsum].
  exists summary. split; [exact Hsum |]. split.
  - unfold get_charts. rewrite Hdf, Hdet, Hsum. cbn [of_result and_then].
    unfold create_anomaly_highlights. destruct (is_empty df); reflexivity.
  - intros Hempty. rewrite Hempty in Hdf, Hsum. cbn in Hdf, Hsum.
    injection Hdf as <-. injection Hsum as <-. repeat split; reflexivity.
Qed.

(** X3. When some reading in the deque was made at a whole second
    ([microsecond = 0]), [GET /charts] raises the conversion error of
    [strptime], whatever else the deque holds; the request is counted and
    no generation time is recorded. *)
Theorem get_charts_raises_on_whole_second :
  forall (duration : float) (app : App) (r : Reading) (now : datetime)
         (ts : option datetime) (d : Draw),
    In r (recent_readings app) ->
    r = generate_reading now ts d ->
    microsecond (match ts with None => now | Some t => t end) = 0%N ->
    get_charts group_order pl_std pl_corr fromisoformat_text duration app
    = (mkApp (recent_readings app)
             (mkMetrics (connection_count (metrics app))
                        (chart_generation_times (metrics app))
                        (total_requests (metrics app) + 1))
             (streams app),
       Raises (PolarsError (ComputeError "timestamp"))).
Proof.
  intros duration app r now ts d Hin Hr Hus.
  assert (Hraise : get_sensor_dataframe (recent_readings app)
                   = Raise (ComputeError "timestamp")).
  { destruct (get_sensor_dataframe (recent_readings app)) as [df | e] eqn:Hdf.
    - rewrite get_sensor_dataframe_mapM in Hdf.
      destruct (mapM_ok_each _ _ _ _ Hdf Hin) as [row Hrow].
      unfold parse_row in Hrow.
      destruct (strptime timestamp_format (timestamp r)) as [t |] eqn:Ht;
        [| discriminate].
      apply strptime_has_fraction in Ht.
      rewrite Hr in Ht. unfold generate_reading in Ht. cbn [timestamp] in Ht.
      rewrite isoformat_whole_second_no_fraction in Ht by exact Hus. discriminate.
    - f_equal. eapply get_sensor_dataframe_raises. exact Hdf. }
  unfold get_charts. rewrite Hraise. reflexivity.
Qed.
End ChartRoute.

Lemma get_charts_raises_on_anomalies_witness :
  get_sensor_dataframe (recent_readings (app_holding twenty_readings)) = Ok twenty_rows
  /\ snd (get_charts first_seen col_std no_corr no_text_datetime 1%float (app_holding twenty_readings))
     = Raises (TypeError "fromisoformat: argument must be str").
Proof.
  split; [vm_compute; reflexivity |].
  erewrite (get_charts_raises_on_anomalies first_seen col_std no_corr no_text_datetime
              1%float (app_holding twenty_readings) twenty_rows).
  - reflexivity.
  - vm_compute. reflexivity.
  - vm_compute. reflexivity.
  - discriminate.
Defined.

Lemma get_charts_returns_without_anomalies_witness :
  detect_anomalies col_std (recent_readings (app_holding nine_readings)) = Ok []
  /\ exists context,
       snd (get_charts first_seen col_std no_corr no_text_datetime 1%float (app_holding nine_readings))
       = Returns context
       /\ anomaly_count context = 0.
Proof.
  split; [vm_compute; reflexivity |].
  destruct (get_charts_returns_without_anomalies first_seen col_std no_corr no_text_datetime
              1%float (app_holding nine_readings)
              (match get_sensor_dataframe nine_readings with Ok df => df | Raise _ => [] end))
    as (summary & _ & Hcharts & _).
  - vm_compute. reflexivity.
  - vm_compute. reflexivity.
  - rewrite Hcharts. eexists. split; reflexivity.
Defined.

Lemma get_charts_raises_on_whole_second_witness :
  In whole_second_reading (recent_readings (app_holding (nine_readings ++ [whole_second_reading])))
  /\ snd (get_charts first_seen col_std no_corr no_text_datetime 1%float
            (app_holding (nine_readings ++ [whole_second_reading])))
     = Raises (PolarsError (ComputeError "timestamp")).
Proof.
  assert (Hin : In whole_second_reading
                  (recent_readings (app_holding (nine_readings ++ [whole_second_reading]))))
    by (apply in_or_app; right; left; reflexivity).
  split; [exact Hin |].
  rewrite (get_charts_raises_on_whole_second first_seen col_std no_corr no_text_datetime 1%float
             (app_holding (nine_readings ++ [whole_second_reading]))
             whole_second_reading (sample_time 0) None (sample_draw 20%float "normal")
             Hin eq_refl eq_refl).
  reflexivity.
Defined.

(** ** The status chart *)

Lemma string_leb_trans (a b c : string) :
  String.leb a b = true -> String.leb b c = true -> String.leb a c = true.
Proof.
  unfold String.leb. revert b c.
  induction a as [| x a IH]; intros [| y b] [| z c]; simpl; try congruence.
  unfold Ascii.compare.
  destruct (N.compare_spec (N_of_ascii x) (N_of_ascii y)) as [Hxy | Hxy | Hxy];
    destruct (N.compare_spec (N_of_ascii y) (N_of_ascii z)) as [Hyz | Hyz | Hyz];
    destruct (N.compare_spec (N_of_ascii x) (N_of_ascii z)) as [Hxz | Hxz | Hxz];
    try congruence; try lia.
  apply IH.
Qed.

Lemma insert_by_status_perm (x : string * nat) (l : list (string * nat)) :
  Permutation (insert_by_status x l) (x :: l).
Proof.
  induction l as [| y l IH]; simpl; [apply Permutation_refl |].
  destruct (String.leb (fst x) (fst y)); [apply Permutation_refl |].
  eapply Permutation_trans; [apply perm_skip; exact IH | apply perm_swap].
Qed.

Lemma sort_by_status_perm (l : list (string * nat)) :
  Permutation (sort_by_status l) l.
Proof.
  induction l as [| x l IH]; simpl; [constructor |].
  eapply Permutation_trans; [apply insert_by_status_perm |].
  apply perm_skip. exact IH.
Qed.

Lemma insert_by_status_sorted (x : string * nat) (l : list (string * nat)) :
  StronglySorted by_label l -> StronglySorted by_label (insert_by_status x l).
Proof.
  induction 1 as [| y l Hs IH Hall]; simpl.
  - repeat constructor.
  - destruct (String.leb (fst x) (fst y)) eqn:Hxy.
    + constructor; [constructor; assumption |].
      constructor; [exact Hxy |].
      rewrite Forall_forall in *. intros z Hz.
      eapply string_leb_trans; [exact Hxy | apply Hall; exact Hz].
    + constructor; [exact IH |].
      rewrite Forall_forall in *. intros z Hz.
      apply (Permutation_in _ (insert_by_status_perm x l)) in Hz.
      destruct Hz as [<- | Hz]; [| apply Hall; exact Hz].
      destruct (String.leb_total (fst x) (fst y)) as [H | H]; [congruence | exact H].
Qed.

Lemma sort_by_status_sorted (l : list (string * nat)) :
  StronglySorted by_label (sort_by_status l).
Proof.
  induction l as [| x l IH]; simpl; [constructor |].
  apply insert_by_status_sorted. exact IH.
Qed.

Lemma sorted_by_label_unique (l1 l2 : list (string * nat)) :
  StronglySorted by_label l1 -> StronglySorted by_label l2 ->
  NoDup (map fst l1) -> Permutation l1 l2 -> l1 = l2.
Proof.
  intros H1. revert l2. induction H1 as [| a l1 Hs1 IH Hall1]; intros l2 H2 Hnd Hperm.
  - apply Permutation_nil in Hperm. symmetry. exact Hperm.
  - destruct H2 as [| b l2 Hs2 Hall2].
    + apply Permutation_sym, Permutation_nil in Hperm. discriminate.
    + assert (Hab : a = b).
      { assert (Ha : In a (b :: l2))
          by (apply (Permutation_in _ Hperm); left; reflexivity).
        assert (Hb : In b (a :: l1))
          by (apply (Permutation_in _ (Permutation_sym Hperm)); left; reflexivity).
        destruct Ha as [Ha | Ha]; [symmetry; exact Ha |].
        destruct Hb as [Hb | Hb]; [exact Hb |].
        rewrite Forall_forall in Hall1, Hall2.
        pose proof (String.leb_antisym _ _ (Hall1 b Hb) (Hall2 a Ha)) as Hfst.
        simpl in Hnd. inversion Hnd as [| ? ? Hnotin _]; subst.
        exfalso. apply Hnotin. rewrite Hfst. apply in_map. exact Hb. }
      subst b. f_equal. apply IH.
      * exact Hs2.
      * simpl in Hnd. inversion Hnd; assumption.
      * apply Permutation_cons_inv in Hperm. exact Hperm.
Qed.

Lemma value_counts_labels (group_order : list string -> list string) (col : list string) :
  map fst (value_counts group_order col) = group_order col.
Proof. unfold value_counts. rewrite map_map. simpl. apply map_id. Qed.

Lemma value_counts_perm (go1 go2 : list string -> list string) (col : list string) :
  group_order_ok go1 -> group_order_ok go2 ->
  Permutation (value_counts go1 col) (value_counts go2 col).
Proof.
  intros H1 H2. unfold value_counts. apply Permutation_map.
  eapply Permutation_trans; [apply H1 | apply Permutation_sym, H2].
Qed.

(** X4. For a non-empty frame, the status chart lists every status that
    occurs exactly once, in alphabetical order, with the number of rows that
    have it and its colour from the colour table (grey for a label that is
    not in the table); since the counts are sorted by label, the chart does
    not depend on the order in which [value_counts] yields the groups. *)
Theorem create_status_distribution_sorted :
  forall (group_order : list string -> list string) (df : DataFrame),
    group_order_ok group_order ->
    df <> [] ->
    exists status_counts : list (string * nat),
      create_status_distribution group_order df
      = StatusChart (map fst status_counts) (map snd status_counts)
                    (map (fun vc => color_of (fst vc)) status_counts)
      /\ alphabetical (map fst status_counts)
      /\ NoDup (map fst status_counts)
      /\ (forall (label : string) (c : nat),
            In (label, c) status_counts <->
            In label (map r_status df)
            /\ c = count_occ string_dec (map r_status df) label)
      /\ (forall other_order : list string -> list string,
            group_order_ok other_order ->
            create_status_distribution other_order df
            = create_status_distribution group_order df).
Proof.
  intros group_order df Hok Hne.
  set (col := map r_status df).
  exists (sort_by_status (value_counts group_order col)).
  pose proof (sort_by_status_perm (value_counts group_order col)) as Hperm.
  pose proof (sort_by_status_sorted (value_counts group_order col)) as Hsorted.
  assert (Hnd : NoDup (map fst (sort_by_status (value_counts group_order col)))).
  { apply (Permutation_NoDup (l := group_order col)).
    - rewrite <- (value_counts_labels group_order col).
      apply Permutation_map, Permutation_sym, Hperm.
    - apply (Permutation_NoDup (Permutation_sym (Hok col))). apply NoDup_nodup. }
  split; [destruct df; [congruence | reflexivity] |].
  split.
  { unfold alphabetical. apply StronglySorted_Sorted.
    clear - Hsorted. induction Hsorted as [| a l _ IH Hall]; simpl; constructor.
    - exact IH.
    - rewrite Forall_forall in *. intros s Hs. apply in_map_iff in Hs.
      destruct Hs as (b & <- & Hb). apply Hall. exact Hb. }
  split; [exact Hnd |].
  split.
  { intros label c. split.
    - intros Hin. apply (Permutation_in _ Hperm) in Hin.
      unfold value_counts in Hin. apply in_map_iff in Hin.
      destruct Hin as (v & Hv & Hin). injection Hv as -> <-. split; [| reflexivity].
      apply (Permutation_in _ (Hok col)) in Hin. apply nodup_In in Hin. exact Hin.
    - intros [Hin ->]. apply (Permutation_in _ (Permutation_sym Hperm)).
      unfold value_counts. apply in_map_iff. exists label. split; [reflexivity |].
      apply (Permutation_in _ (Permutation_sym (Hok col))). apply nodup_In. exact Hin. }
  intros other Hother. unfold create_status_distribution.
  destruct (is_empty df); [reflexivity |]. fold col.
  rewrite (sorted_by_label_unique
             (sort_by_status (value_counts other col))
             (sort_by_status (value_counts group_order col))).
  - reflexivity.
  - apply sort_by_status_sorted.
  - exact Hsorted.
  - apply (Permutation_NoDup (l := map fst (sort_by_status (value_counts group_order col))));
      [| exact Hnd].
    apply Permutation_map.
    eapply Permutation_trans; [exact Hperm |].
    eapply Permutation_trans; [apply (value_counts_perm group_order other col Hok Hother) |].
    apply Permutation_sym, sort_by_status_perm.
  - eapply Permutation_trans; [apply sort_by_status_perm |].
    eapply Permutation_trans; [apply (value_counts_perm other group_order col Hother Hok) |].
    apply Permutation_sym, Hperm.
Qed.

Lemma create_status_distribution_sorted_witness :
  group_order_ok first_seen
  /\ twenty_rows <> []
  /\ create_status_distribution (fun col => rev (first_seen col)) twenty_rows
     = create_status_distribution first_seen twenty_rows.
Proof.
  split; [exact first_seen_ok |]. split; [discriminate |].
  destruct (create_status_distribution_sorted first_seen twenty_rows first_seen_ok)
    as (sc & _ & _ & _ & _ & Hindep); [discriminate |].
  apply Hindep. intros col.
  eapply Permutation_trans; [apply Permutation_sym, Permutation_rev | apply first_seen_ok].
Defined.

(** ** Streams and the shared deque *)

Lemma step_recent_readings (app : App) (a : action) :
  recent_readings (step app a)
  = deque_extend recent_readings_maxlen (recent_readings app) (reading_of app a).
Proof.
  destruct a as [| i now d | i e]; simpl.
  - reflexivity.
  - unfold event_generator_next.
    destruct (nth_error (streams app) i) as [[[| |] out] |]; reflexivity.
  - unfold event_generator_throw.
    destruct (nth_error (streams app) i) as [[[| |] out] |]; reflexivity.
Qed.

Lemma deque_extend_length {A : Type} (maxlen : nat) (xs d : list A) :
  List.length d <= maxlen -> List.length (deque_extend maxlen d xs) <= maxlen.
Proof.
  intros H. rewrite deque_extend_lastn by exact H. apply lastn_length.
Qed.

Lemma recent_readings_run (app : App) (actions : list action) :
  List.length (recent_readings app) <= 100 ->
  recent_readings (run app actions)
  = lastn 100 (recent_readings app ++ generated app actions).
Proof.
  revert app.
  induction actions as [| a actions IH]; intros app H.
  - simpl. rewrite app_nil_r. unfold lastn.
    replace (List.length (recent_readings app) - 100) with 0 by lia. reflexivity.
  - change (run app (a :: actions)) with (run (step app a) actions).
    assert (Hstep : List.length (recent_readings (step app a)) <= 100).
    { rewrite step_recent_readings. apply deque_extend_length. exact H. }
    rewrite (IH (step app a) Hstep). rewrite step_recent_readings.
    unfold recent_readings_maxlen.
    rewrite (deque_extend_lastn 100 (reading_of app a) (recent_readings app) H).
    rewrite lastn_lastn_app. simpl. rewrite <- app_assoc. reflexivity.
Qed.

(** X5. The shared deque is a window on everything the streams generate:
    after any run of stream actions it holds the last 100 of the readings it
    held before followed by the readings that the generators made during
    the run, all streams together, in the order in which they were made. *)
Theorem deque_is_window_on_all_streams :
  forall (app : App) (actions : list action),
    List.length (recent_readings app) <= 100 ->
    recent_readings (run app actions)
    = lastn 100 (recent_readings app ++ generated app actions).
Proof.
  exact recent_readings_run.
Qed.

Lemma deque_is_window_on_all_streams_witness :
  List.length (recent_readings two_streams) <= 100
  /\ recent_readings
       (run two_streams [Next 0 (sample_time 5) (sample_draw 20%float "normal");
                         Next 1 (sample_time 6) (sample_draw 21%float "warning")])
     = [sample_reading 5 20%float "normal"; sample_reading 6 21%float "warning"].
Proof.
  split; [simpl; lia |].
  rewrite (deque_is_window_on_all_streams two_streams) by (simpl; lia).
  reflexivity.
Defined.

Lemma nth_error_snoc {A : Type} (l : list A) (x : A) (j : nat) :
  nth_error (l ++ [x]) j
  = if j =? List.length l then Some x else nth_error l j.
Proof.
  revert j. induction l as [| y l IH]; intros [| j]; simpl; try reflexivity.
  - destruct j; reflexivity.
  - apply IH.
Qed.

Lemma nth_error_list_update_same {A : Type} (l : list A) (i : nat) (x : A) :
  nth_error (list_update i x l) i
  = match nth_error l i with Some _ => Some x | None => None end.
Proof.
  revert i. induction l as [| y l IH]; intros [| i]; simpl; try reflexivity.
  apply IH.
Qed.

Lemma sent_to_step (app : App) (a : action) (j : nat) :
  sent_to (step app a) j
  = sent_to app j
    ++ map (mkEvent "sensor_update")
         (match a with
          | Next i _ _ => if i =? j then reading_of app a else []
          | _ => []
          end).
Proof.
  unfold sent_to. destruct a as [| i now d | i e]; simpl.
  - rewrite app_nil_r, nth_error_snoc.
    destruct (Nat.eqb_spec j (List.length (streams app))) as [-> | Hne];
      [| reflexivity].
    rewrite (proj2 (nth_error_None (streams app) _)) by lia. reflexivity.
  - unfold event_generator_next.
    destruct (nth_error (streams app) i) as [[[| |] out] |] eqn:Hi; simpl.
    1, 2: destruct (Nat.eqb_spec i j) as [<- | Hne];
      [ rewrite nth_error_list_update_same, Hi; reflexivity
      | rewrite nth_error_list_update_neq by congruence;
        simpl; rewrite app_nil_r; reflexivity ].
    + destruct (i =? j); simpl; rewrite app_nil_r; reflexivity.
    + destruct (i =? j); simpl; rewrite app_nil_r; reflexivity.
  - rewrite app_nil_r. unfold event_generator_throw.
    destruct (nth_error (streams app) i) as [[[| |] out] |] eqn:Hi; simpl;
      try reflexivity.
    all: destruct (Nat.eq_dec j i) as [-> | Hne];
      [ rewrite nth_error_list_update_same, Hi; reflexivity
      | rewrite nth_error_list_update_neq by exact Hne; reflexivity ].
Qed.

Lemma generated_by_subsequence (j : nat) (actions : list action) (app : App) :
  subsequence (generated_by j app actions) (generated app actions).
Proof.
  revert app. induction actions as [| a actions IH]; intros app; simpl.
  - apply subseq_nil.
  - specialize (IH (step app a)).
    destruct a as [| i now d | i e]; simpl; try exact IH.
    unfold reading_of.
    destruct (nth_error (streams app) i) as [[[| |] out] |]; simpl;
      destruct (i =? j); simpl; try exact IH.
    all: first [apply subseq_keep; exact IH | apply subseq_skip; exact IH].
Qed.

(** X6. Each client is sent its own generator's readings and nothing else:
    after any run, what stream [j] has been sent is what it had been sent
    before followed by one [sensor_update] event for each reading made by
    the generator of stream [j] during the run, in order; these readings are
    among those that went into the shared deque, in the same order. *)
Theorem stream_sent_own_readings :
  forall (app : App) (actions : list action) (j : nat),
    sent_to (run app actions) j
    = sent_to app j ++ map (mkEvent "sensor_update") (generated_by j app actions)
    /\ subsequence (generated_by j app actions) (generated app actions).
Proof.
  intros app actions j. split; [| apply generated_by_subsequence].
  revert app. induction actions as [| a actions IH]; intros app.
  - simpl. rewrite app_nil_r. reflexivity.
  - change (run app (a :: actions)) with (run (step app a) actions).
    rewrite IH, sent_to_step. cbn [generated_by].
    rewrite map_app, app_assoc. reflexivity.
Qed.

(** X7. A generator that has ended stays ended: whatever happens later on
    any stream, its stream keeps the state [Finished] and is sent nothing
    more. *)
Theorem finished_stream_is_final :
  forall (app : App) (j : nat) (out : list SseEvent) (actions : list action),
    nth_error (streams app) j = Some (mkStream Finished out) ->
    nth_error (streams (run app actions)) j = Some (mkStream Finished out).
Proof.
  intros app j out actions. revert app.
  induction actions as [| a actions IH]; intros app H; [exact H |].
  change (run app (a :: actions)) with (run (step app a) actions).
  apply IH. destruct a as [| i now d | i e]; simpl.
  - rewrite nth_error_snoc.
    destruct (Nat.eqb_spec j (List.length (streams app))) as [-> | _]; [| exact H].
    rewrite (proj2 (nth_error_None (streams app) _)) in H by lia. discriminate.
  - unfold event_generator_next.
    destruct (nth_error (streams app) i) as [[[| |] outi] |] eqn:Hi; simpl;
      try exact H.
    all: rewrite nth_error_list_update_neq; [exact H | intros ->; congruence].
  - unfold event_generator_throw.
    destruct (nth_error (streams app) i) as [[[| |] outi] |] eqn:Hi; simpl;
      try exact H.
    all: rewrite nth_error_list_update_neq; [exact H | intros ->; congruence].
Qed.

Lemma finished_stream_is_final_witness :
  nth_error (streams (event_generator_throw 0 Cancelled two_streams)) 0
  = Some (mkStream Finished [])
  /\ nth_error
       (streams (run (event_generator_throw 0 Cancelled two_streams)
                     [Next 0 (sample_time 5) (sample_draw 20%float "normal"); Connect;
                      Throw 0 Failed]))
       0
     = Some (mkStream Finished []).
Proof.
  split; [reflexivity |].
  apply (finished_stream_is_final (event_generator_throw 0 Cancelled two_streams) 0 []).
  reflexivity.
Defined.

(** ** The counters *)

Lemma open_streams_list_update (l : list Stream) (i : nat) (s s' : Stream) :
  nth_error l i = Some s ->
  List.length (filter has_not_ended (list_update i s' l))
  + (if has_not_ended s then 1 else 0)
  = List.length (filter has_not_ended l) + (if has_not_ended s' then 1 else 0).
Proof.
  revert i. induction l as [| y l IH]; intros [| i] H; simpl in *; try discriminate.
  - injection H as ->. destruct (has_not_ended s), (has_not_ended s'); simpl; lia.
  - specialize (IH i H). destruct (has_not_ended y); simpl; lia.
Qed.

(** One event on a stream: the connection count stays at least the number
    of open streams, and its excess over that number does not shrink. *)
Lemma step_counts_connections (app : App) (a : action) :
  (Z.of_nat (open_streams app) <= connection_count (metrics app))%Z ->
  (Z.of_nat (open_streams (step app a)) <= connection_count (metrics (step app a))
   /\ connection_count (metrics app) - Z.of_nat (open_streams app)
      <= connection_count (metrics (step app a)) - Z.of_nat (open_streams (step app a)))%Z.
Proof.
  unfold open_streams. intros H. destruct a as [| i now d | i e]; simpl.
  - rewrite filter_app, length_app. simpl. lia.
  - unfold event_generator_next.
    destruct (nth_error (streams app) i) as [[[| |] out] |] eqn:Hi; simpl;
      try lia.
    all: pose proof (open_streams_list_update (streams app) i _
                       (mkStream Running (out ++ [mkEvent "sensor_update"
                                                    (generate_reading now None d)])) Hi)
           as Hc;
      simpl in Hc; lia.
  - unfold event_generator_throw.
    destruct (nth_error (streams app) i) as [[[| |] out] |] eqn:Hi; simpl;
      try lia.
    all: pose proof (open_streams_list_update (streams app) i _
                       (mkStream Finished out) Hi) as Hc;
      simpl in Hc; try destruct (is_handled e); simpl; lia.
Qed.

Section ServerFacts.
Variable group_order : list string -> list string.
Variable pl_std : list float -> option float.
Variable pl_corr : list float -> list float -> option float.
Variable fromisoformat_text : string -> option datetime.
Variable py_sum : list float -> float.

Let serve' := serve group_order pl_std pl_corr fromisoformat_text py_sum.

Lemma get_charts_state (duration : float) (app : App) :
  let app' := fst (get_charts group_order pl_std pl_corr fromisoformat_text duration app) in
  recent_readings app' = recent_readings app
  /\ streams app' = streams app
  /\ connection_count (metrics app') = connection_count (metrics app)
  /\ total_requests (metrics app') = (total_requests (metrics app) + 1)%Z
  /\ (chart_generation_times (metrics app') = chart_generation_times (metrics app)
      \/ chart_generation_times (metrics app')
         = chart_generation_times (metrics app) ++ [duration]).
Proof.
  unfold get_charts.
  match goal with
  | |- context [match ?body with Returns _ => _ | Raises _ => _ end] => destruct body
  end; simpl; auto 10.
Qed.

Lemma serve_unless_stream (app : App) (req : request) :
  is_counted req = true ->
  recent_readings (serve' app req) = recent_readings app
  /\ streams (serve' app req) = streams app
  /\ connection_count (metrics (serve' app req)) = connection_count (metrics app)
  /\ total_requests (metrics (serve' app req)) = (total_requests (metrics app) + 1)%Z.
Proof.
  destruct req as [a | | duration | | now | now]; simpl; intros H;
    try discriminate; auto.
  destruct (get_charts_state duration app) as (H1 & H2 & H3 & H4 & _). auto.
Qed.

Lemma serve_stream_requests (app : App) (a : action) :
  total_requests (metrics (step app a)) = total_requests (metrics app).
Proof.
  destruct a as [| i now d | i e]; simpl; try reflexivity.
  - unfold event_generator_next.
    destruct (nth_error (streams app) i) as [[[| |] out] |]; reflexivity.
  - unfold event_generator_throw.
    destruct (nth_error (streams app) i) as [[[| |] out] |];
      try destruct (is_handled e); reflexivity.
Qed.

(** X8. What every sequence of requests and stream events keeps, from a
    state in which the deque holds at most 100 readings and the connection
    count is at least the number of open streams (as at start-up): the
    deque still holds at most 100 readings; the connection count is still at
    least the number of generators that have not ended, so it is never
    negative and the floor at 0 in [track_disconnection] is never reached;
    the excess of the count over that number never shrinks, so a stream
    that ends without a handler having run (before its first turn, or
    closed with [GeneratorExit]) stays counted; and the request count has
    grown by the number of requests to the routes other than [/stream]. *)
Theorem server_invariants :
  forall (app : App) (reqs : list request),
    List.length (recent_readings app) <= 100 ->
    (Z.of_nat (open_streams app) <= connection_count (metrics app))%Z ->
    let app' := serve_all group_order pl_std pl_corr fromisoformat_text py_sum app reqs in
    List.length (recent_readings app') <= 100
    /\ (Z.of_nat (open_streams app') <= connection_count (metrics app'))%Z
    /\ (connection_count (metrics app) - Z.of_nat (open_streams app)
        <= connection_count (metrics app') - Z.of_nat (open_streams app'))%Z
    /\ total_requests (metrics app')
       = (total_requests (metrics app)
          + Z.of_nat (List.length (filter is_counted reqs)))%Z.
Proof.
  intros app reqs. revert app.
  induction reqs as [| req reqs IH]; intros app Hlen Hcount.
  - simpl. repeat split; [exact Hlen | exact Hcount | lia | lia].
  - change (serve_all group_order pl_std pl_corr fromisoformat_text py_sum app (req :: reqs))
      with (serve_all group_order pl_std pl_corr fromisoformat_text py_sum (serve' app req) reqs).
    assert (Hstep : List.length (recent_readings (serve' app req)) <= 100
                    /\ (Z.of_nat (open_streams (serve' app req))
                        <= connection_count (metrics (serve' app req)))%Z
                    /\ (connection_count (metrics app) - Z.of_nat (open_streams app)
                        <= connection_count (metrics (serve' app req))
                           - Z.of_nat (open_streams (serve' app req)))%Z
                    /\ total_requests (metrics (serve' app req))
                       = (total_requests (metrics app)
                          + (if is_counted req then 1 else 0))%Z).
    { destruct (is_counted req) eqn:Hc.
      - destruct (serve_unless_stream app req Hc) as (H1 & H2 & H3 & H4).
        unfold open_streams in *. rewrite H1, H2, H3, H4.
        repeat split; [exact Hlen | exact Hcount | lia].
      - destruct req as [a | | | | |]; try discriminate. subst serve'. simpl.
        destruct (step_counts_connections app a Hcount) as [Hc1 Hc2].
        split; [| split; [exact Hc1 | split; [exact Hc2 |]]].
        + rewrite step_recent_readings. apply deque_extend_length. exact Hlen.
        + rewrite serve_stream_requests. lia. }
    destruct Hstep as (H1 & H2 & H3 & H4).
    destruct (IH (serve' app req) H1 H2) as (J1 & J2 & J3 & J4).
    cbv zeta. split; [exact J1 |]. split; [exact J2 |]. split; [lia |].
    rewrite J4, H4. simpl. destruct (is_counted req); simpl; lia.
Qed.
End ServerFacts.

Lemma server_invariants_witness :
  List.length (recent_readings initial_app) <= 100
  /\ (Z.of_nat (open_streams initial_app) <= connection_count (metrics initial_app))%Z
  /\ (let app' :=
        serve_all first_seen col_std no_corr no_text_datetime float_sum initial_app
          [OnStream Connect; GetSensorData; OnStream (Throw 0 Cancelled);
           GetCharts 1%float] in
      open_streams app' = 0
      /\ connection_count (metrics app') = 1%Z
      /\ (Z.of_nat (open_streams app') <= connection_count (metrics app'))%Z).
Proof.
  split; [simpl; lia |]. split; [simpl; lia |].
  destruct (server_invariants first_seen col_std no_corr no_text_datetime float_sum initial_app
              [OnStream Connect; GetSensorData; OnStream (Throw 0 Cancelled);
               GetCharts 1%float])
    as (_ & Hcount & _).
  - simpl. lia.
  - simpl. lia.
  - cbv zeta. split; [reflexivity |]. split; [reflexivity | exact Hcount].
Defined.

(** ** The latest reading *)

Lemma deque_append_last {A : Type} (maxlen : nat) (d : list A) (x : A) :
  0 < maxlen -> List.length d <= maxlen ->
  exists front, deque_append maxlen d x = front ++ [x].
Proof.
  intros Hpos Hlen. rewrite deque_append_lastn by exact Hlen. unfold lastn.
  rewrite length_app. simpl.
  rewrite skipn_app.
  replace (List.length d + 1 - maxlen - List.length d) with 0 by lia.
  eexists. reflexivity.
Qed.

Lemma latest_of_snoc (front : list Reading) (x : Reading) :
  match front ++ [x] with
  | [] => None
  | r :: rest => Some (last rest r)
  end = Some x.
Proof.
  destruct front as [| r front]; [reflexivity |].
  cbn [app]. f_equal. apply last_last.
Qed.

(** X9. [GET /sensor-data] serves the reading made last: right after a turn
    of a generator that has not ended it returns the reading of that turn,
    whichever stream made it; on an empty deque it returns [None] instead of
    failing. It counts the request and changes nothing else. *)
Theorem get_sensor_data_latest :
  forall (app : App) (i : nat) (now : datetime) (d : Draw)
         (g : generator_state) (out : list SseEvent),
    List.length (recent_readings app) <= 100 ->
    nth_error (streams app) i = Some (mkStream g out) ->
    g <> Finished ->
    snd (get_sensor_data (event_generator_next i now d app))
    = Some (generate_reading now None d)
    /\ (forall app0 : App,
          (snd (get_sensor_data app0) = None <-> recent_readings app0 = [])
          /\ fst (get_sensor_data app0)
             = mkApp (recent_readings app0)
                     (mkMetrics (connection_count (metrics app0))
                                (chart_generation_times (metrics app0))
                                (total_requests (metrics app0) + 1))
                     (streams app0)).
Proof.
  intros app i now d g out Hlen Hi Hg. split.
  - rewrite (event_generator_next_open app i now d g out Hi Hg).
    unfold get_sensor_data. cbn [snd recent_readings].
    destruct (deque_append_last recent_readings_maxlen (recent_readings app)
                (generate_reading now None d)) as [front Hfront];
      [unfold recent_readings_maxlen; lia | exact Hlen |].
    unfold recent_readings_append. rewrite Hfront. apply latest_of_snoc.
  - intros app0. split; [| reflexivity].
    unfold get_sensor_data. cbn [snd].
    destruct (recent_readings app0); split; intros H; congruence.
Qed.

Lemma get_sensor_data_latest_witness :
  nth_error (streams two_streams) 1 = Some (mkStream Created [])
  /\ snd (get_sensor_data
            (event_generator_next 1 (sample_time 5) (sample_draw 20%float "normal")
               two_streams))
     = Some (sample_reading 5 20%float "normal").
Proof.
  split; [reflexivity |].
  apply (get_sensor_data_latest two_streams 1 (sample_time 5)
           (sample_draw 20%float "normal") Created []).
  - simpl. lia.
  - reflexivity.
  - discriminate.
Defined.

(** ** Monitoring *)





(** ** Timestamps that parse *)

Lemma is_digit_digit_char (n : N) : is_digit (digit_char n) = true.
Proof.
  unfold digit_char.
  assert (H : (n mod 10 < 10)%N) by (apply N.mod_lt; discriminate).
  remember (n mod 10)%N as k eqn:Hk. clear Hk.
  rewrite <- (N2Nat.id k). assert (Hk : N.to_nat k < 10) by lia.
  remember (N.to_nat k) as m eqn:Hm. clear Hm H.
  do 10 (destruct m as [| m]; [reflexivity |]). lia.
Qed.

Lemma digit_val_digit_char (n : N) : digit_val (digit_char n) = (n mod 10)%N.
Proof.
  unfold digit_char, digit_val.
  assert (H : (n mod 10 < 10)%N) by (apply N.mod_lt; discriminate).
  generalize dependent (n mod 10)%N. intros k Hk.
  rewrite N_ascii_embedding by lia. lia.
Qed.

Lemma take_digits_zero_pad (w : nat) :
  forall (n : N) (k : nat) (rest : string),
    take_digits (w + k) (String.append (zero_pad w n) rest)
    = (decimal_digits w n ++ fst (take_digits k rest), snd (take_digits k rest)).
Proof.
  induction w as [| w IH]; intros n k rest.
  - simpl. destruct (take_digits k rest). reflexivity.
  - cbn [zero_pad decimal_digits].
    replace (S w + k) with (w + S k) by lia.
    assert (Happ : forall a b c : string,
               String.append (String.append a b) c = String.append a (String.append b c)).
    { intros a b c. induction a as [| x a IHa]; simpl; [reflexivity |].
      rewrite IHa. reflexivity. }
    rewrite Happ. cbn [String.append].
    rewrite IH. cbn [take_digits].
    rewrite is_digit_digit_char, digit_val_digit_char.
    destruct (take_digits k rest) as [ds rest']. cbn [fst snd].
    rewrite <- app_assoc. reflexivity.
Qed.

Lemma digits_value_snoc (ds : list N) (d : N) :
  digits_value (ds ++ [d]) = (10 * digits_value ds + d)%N.
Proof. unfold digits_value. rewrite fold_left_app. reflexivity. Qed.

Lemma digits_value_decimal (w : nat) :
  forall n : N, digits_value (decimal_digits w n) = (n mod 10 ^ N.of_nat w)%N.
Proof.
  induction w as [| w IH]; intros n.
  - simpl. rewrite N.mod_1_r. reflexivity.
  - cbn [decimal_digits]. rewrite digits_value_snoc, IH.
    rewrite Nat2N.inj_succ, N.pow_succ_r'.
    rewrite (N.Div0.mod_mul_r n 10 (10 ^ N.of_nat w)). lia.
Qed.

Lemma decimal_digits_nonempty (w : nat) (n : N) :
  0 < w -> decimal_digits w n <> [].
Proof.
  destruct w; [lia |]. intros _. cbn [decimal_digits].
  destruct (decimal_digits w (n / 10)); discriminate.
Qed.

(** A numeric item reads back a zero-padded field that is followed by
    something that is not a digit, or by nothing. *)
Lemma scan_number_zero_pad (w k : nat) (n : N) (rest : string) :
  0 < w ->
  (n < 10 ^ N.of_nat w)%N ->
  take_digits k rest = ([], rest) ->
  scan_number (w + k) (String.append (zero_pad w n) rest) = Some (n, rest).
Proof.
  intros Hw Hn Hrest. unfold scan_number.
  rewrite take_digits_zero_pad, Hrest. cbn [fst snd]. rewrite app_nil_r.
  pose proof (decimal_digits_nonempty w n Hw) as Hne.
  pose proof (digits_value_decimal w n) as Hval.
  destruct (decimal_digits w n) as [| d ds]; [congruence |].
  unfold digits_value in Hval. rewrite Hval, N.mod_small by exact Hn. reflexivity.
Qed.

Lemma append_empty_r (s : string) : String.append s EmptyString = s.
Proof. induction s as [| c s IH]; simpl; [reflexivity | rewrite IH; reflexivity]. Qed.

(** The text that [isoformat] writes for a valid datetime off the whole
    second is parsed: to the second of the datetime, and to the thousandth
    part of its microsecond. *)
Lemma isoformat_parses (t : datetime) :
  datetime_valid t = true ->
  microsecond t <> 0%N ->
  strptime timestamp_format (isoformat t) = Some (timestamp_of t).
Proof.
  destruct t as [y mo d h mi s us]. intros Hvalid Hus.
  unfold datetime_valid in Hvalid.
  apply andb_true_iff in Hvalid. destruct Hvalid as [Hrange Hdim].
  apply andb_true_iff in Hrange. destruct Hrange as [Hrange Hyear].
  unfold datetime_in_range in Hrange.
  cbn [year month day hour minute second microsecond] in *.
  repeat (apply andb_true_iff in Hrange; destruct Hrange as [Hrange ?]).
  repeat match goal with
         | H : (_ <=? _)%N = true |- _ => apply N.leb_le in H
         end.
  unfold strptime.
  replace (compile_format timestamp_format)
    with (Some [Numeric FYear; Literal "-"; Numeric FMonth; Literal "-"; Numeric FDay;
                Literal "T"; Numeric FHour; Literal ":"; Numeric FMinute; Literal ":";
                Numeric FSecond; Literal "."; Numeric FNanosecond])
    by reflexivity.
  unfold isoformat.
  cbn [year month day hour minute second microsecond String.concat].
  destruct (N.eqb_spec us 0) as [-> | _]; [congruence |].
  cbn [String.append].
  assert (Hlit : forall (c : ascii) (rest : string),
             is_digit c = false -> forall k, take_digits k (String c rest) = ([], String c rest)).
  { intros c rest Hc k. destruct k; simpl; [reflexivity | rewrite Hc; reflexivity]. }
  cbn [parse_items field_width].
  rewrite (scan_number_zero_pad 4 0 y) by
    (try lia; try (change (10 ^ N.of_nat 4)%N with 10000%N; lia); apply Hlit; reflexivity).
  cbn [parse_items field_width Ascii.eqb Bool.eqb set_field
         p_year p_month p_day p_hour p_minute p_second p_nanosecond].
  rewrite (scan_number_zero_pad 2 0 mo) by
    (try lia; try (change (10 ^ N.of_nat 2)%N with 100%N; lia); apply Hlit; reflexivity).
  cbn [parse_items field_width Ascii.eqb Bool.eqb set_field
         p_year p_month p_day p_hour p_minute p_second p_nanosecond].
  rewrite (scan_number_zero_pad 2 0 d) by
    (try lia; try (change (10 ^ N.of_nat 2)%N with 100%N; lia); apply Hlit; reflexivity).
  cbn [parse_items field_width Ascii.eqb Bool.eqb set_field
         p_year p_month p_day p_hour p_minute p_second p_nanosecond].
  rewrite (scan_number_zero_pad 2 0 h) by
    (try lia; try (change (10 ^ N.of_nat 2)%N with 100%N; lia); apply Hlit; reflexivity).
  cbn [parse_items field_width Ascii.eqb Bool.eqb set_field
         p_year p_month p_day p_hour p_minute p_second p_nanosecond].
  rewrite (scan_number_zero_pad 2 0 mi) by
    (try lia; try (change (10 ^ N.of_nat 2)%N with 100%N; lia); apply Hlit; reflexivity).
  cbn [parse_items field_width Ascii.eqb Bool.eqb set_field
         p_year p_month p_day p_hour p_minute p_second p_nanosecond].
  rewrite (scan_number_zero_pad 2 0 s) by
    (try lia; try (change (10 ^ N.of_nat 2)%N with 100%N; lia); apply Hlit; reflexivity).
  cbn [parse_items field_width Ascii.eqb Bool.eqb set_field
         p_year p_month p_day p_hour p_minute p_second p_nanosecond].
  rewrite <- (append_empty_r (zero_pad 6 us)).
  rewrite (scan_number_zero_pad 6 3 us) by
    (try lia; try (change (10 ^ N.of_nat 6)%N with 1000000%N; lia); reflexivity).
  cbn [parse_items set_field
         p_year p_month p_day p_hour p_minute p_second p_nanosecond].
  unfold valid_fields.
  cbn [p_year p_month p_day p_hour p_minute p_second p_nanosecond].
  repeat match goal with
         | |- context [(?a <=? ?b)%N] =>
             let H := fresh in
             assert (H : (a <=? b)%N = true) by (apply N.leb_le; lia);
             rewrite H; clear H
         end.
  rewrite Hdim. cbn [andb]. f_equal.
  unfold timestamp_micros, timestamp_of, elapsed_seconds, toordinal, seconds_of_day.
  cbn [p_year p_month p_day p_hour p_minute p_second p_nanosecond
         year month day hour minute second microsecond].
  lia.
Qed.

Lemma parse_row_made (now : datetime) (ts : option datetime) (d : Draw) :
  let t := match ts with None => now | Some t => t end in
  datetime_valid t = true ->
  microsecond t <> 0%N ->
  parse_row (generate_reading now ts d)
  = Ok (mkRow (timestamp_of t) (d_temperature d) (d_humidity d) (d_pressure d) (d_status d)).
Proof.
  intros t Hrange Hus. unfold parse_row, generate_reading.
  cbn [timestamp temperature humidity pressure status]. fold t.
  rewrite (isoformat_parses t Hrange Hus). reflexivity.
Qed.

Lemma mapM_ok_iff {A B : Type} (f : A -> result B) (l : list A) :
  (exists bs, mapM f l = Ok bs) <-> (forall a, In a l -> exists b, f a = Ok b).
Proof.
  split.
  - intros [bs H] a Ha. eapply mapM_ok_each; eauto.
  - induction l as [| a l IH]; intros H; simpl; [eauto |].
    destruct (H a (or_introl eq_refl)) as [b ->].
    destruct IH as [bs ->]; [intros a' Ha'; apply H; right; exact Ha' |].
    simpl. eauto.
Qed.

Lemma datetime_valid_in_range (t : datetime) :
  datetime_valid t = true -> datetime_in_range t = true.
Proof.
  unfold datetime_valid. intros H.
  apply andb_true_iff in H. destruct H as [H _].
  apply andb_true_iff in H. destruct H as [H _]. exact H.
Qed.

Lemma timestamp_of_parts (t : datetime) :
  datetime_valid t = true ->
  (timestamp_of t / 1000000 = elapsed_seconds t - EPOCH_ORDINAL * 86400
   /\ timestamp_of t mod 1000000 = Z.of_N (microsecond t) / 1000
   /\ timestamp_of t mod 1000000 < 1000)%Z.
Proof.
  intros Hvalid. apply datetime_valid_in_range in Hvalid.
  unfold datetime_in_range in Hvalid.
  repeat (apply andb_true_iff in Hvalid; destruct Hvalid as [Hvalid ?]).
  repeat match goal with
         | H : (_ <=? _)%N = true |- _ => apply N.leb_le in H
         end.
  unfold timestamp_of.
  generalize (elapsed_seconds t - EPOCH_ORDINAL * 86400)%Z. intros a.
  assert (Hus : (0 <= Z.of_N (microsecond t) <= 999999)%Z) by lia.
  generalize dependent (Z.of_N (microsecond t)). intros us Hus.
  Z.div_mod_to_equations. lia.
Qed.

(** X12. For a deque of readings made by [generate_reading] at valid times
    off the whole second, [get_sensor_dataframe] returns one row for each
    reading, in the order of the deque, with the temperature, humidity,
    pressure and status of the reading. The timestamp of a row is not the
    time at which the reading was made: it has the whole seconds of that
    time, but of its microseconds the thousandth part only, because the six
    digits that [isoformat] writes are read by [%f] as nanoseconds. So
    every timestamp of the frame lies in the first millisecond of its
    second. *)
Theorem get_sensor_dataframe_rows :
  forall made : list (datetime * Draw),
    (forall t d, In (t, d) made -> datetime_valid t = true /\ microsecond t <> 0%N) ->
    get_sensor_dataframe (map (fun td => generate_reading (fst td) None (snd td)) made)
    = Ok (map (fun td => mkRow (timestamp_of (fst td))
                               (d_temperature (snd td)) (d_humidity (snd td))
                               (d_pressure (snd td)) (d_status (snd td)))
              made)
    /\ (forall t d, In (t, d) made ->
          (timestamp_of t / 1000000 = elapsed_seconds t - EPOCH_ORDINAL * 86400
           /\ timestamp_of t mod 1000000 = Z.of_N (microsecond t) / 1000
           /\ timestamp_of t mod 1000000 < 1000)%Z).
Proof.
  intros made Hmade. split.
  - rewrite get_sensor_dataframe_mapM.
    induction made as [| [t d] made IH]; [reflexivity |].
    cbn [map mapM fst snd].
    destruct (Hmade t d (or_introl eq_refl)) as [Hvalid Hus].
    rewrite (parse_row_made t None d Hvalid Hus). cbn [bind].
    rewrite IH by (intros t' d' H'; apply (Hmade t' d'); right; exact H').
    reflexivity.
  - intros t d Hin. apply timestamp_of_parts. apply (Hmade t d Hin).
Qed.

Lemma get_sensor_dataframe_rows_witness :
  datetime_valid (sample_time 123456) = true
  /\ get_sensor_dataframe
       [generate_reading (sample_time 123456) None (sample_draw 20%float "normal")]
     = Ok [mkRow 1715936587000123%Z 20%float 40%float 1010%float "normal"].
Proof.
  split; [reflexivity |].
  destruct (get_sensor_dataframe_rows [(sample_time 123456, sample_draw 20%float "normal")])
    as [Hframe _].
  - intros t d [H | []]. injection H as <- <-.
    split; [reflexivity | discriminate].
  - exact Hframe.
Defined.

(** ** The summary as a whole *)

Lemma list_sum_perm (l1 l2 : list nat) :
  Permutation l1 l2 -> list_sum l1 = list_sum l2.
Proof. induction 1; simpl; lia. Qed.

Lemma count_occ_cons_sum (x : string) (col l : list string) :
  NoDup l -> In x l ->
  list_sum (map (count_occ string_dec (x :: col)) l)
  = S (list_sum (map (count_occ string_dec col) l)).
Proof.
  induction l as [| y l IH]; intros Hnd Hx; [contradiction |].
  inversion Hnd as [| ? ? Hnotin Hnd']; subst.
  rewrite !map_cons.
  destruct (string_dec x y) as [-> | Hne].
  - rewrite count_occ_cons_eq by reflexivity.
    rewrite (map_ext_in (count_occ string_dec (y :: col)) (count_occ string_dec col)).
    + cbn [list_sum fold_right]. lia.
    + intros v Hv. apply count_occ_cons_neq. intros ->. contradiction.
  - rewrite count_occ_cons_neq by exact Hne.
    destruct Hx as [Hx | Hx]; [congruence |].
    cbn [list_sum fold_right]. fold (list_sum (map (count_occ string_dec (x :: col)) l)).
    fold (list_sum (map (count_occ string_dec col) l)).
    rewrite (IH Hnd' Hx). lia.
Qed.

Lemma count_occ_sum (col l : list string) :
  NoDup l -> (forall v, In v col -> In v l) ->
  list_sum (map (count_occ string_dec col) l) = List.length col.
Proof.
  intros Hnd. induction col as [| x col IH]; intros Hin.
  - clear Hnd Hin. induction l as [| y l IHl]; [reflexivity |].
    simpl in *. exact IHl.
  - rewrite count_occ_cons_sum; [| exact Hnd | apply Hin; left; reflexivity].
    rewrite IH by (intros v Hv; apply Hin; right; exact Hv). reflexivity.
Qed.

(** X13. The shape of a summary of a non-empty frame: the status counts add
    up to the number of rows; and every numeric entry ([temp_mean],
    [temp_std], ...) is a list, as long as the list of status counts: one
    copy of the value for each status that occurs, at least one and at most
    as many as there are rows. *)
Theorem statistical_summary_shape :
  forall (group_order : list string -> list string)
         (pl_std : list float -> option float) (recent : list Reading)
         (df : DataFrame),
    group_order_ok group_order ->
    get_sensor_dataframe recent = Ok df ->
    df <> [] ->
    exists (summary : pydict) (counts : list (string * nat)),
      get_statistical_summary group_order pl_std recent = Ok summary
      /\ dict_keys summary
         = ["temp_mean"; "temp_std"; "humidity_mean"; "humidity_std";
            "pressure_mean"; "pressure_std"; "status_counts"]
      /\ dict_get summary "status_counts" = Some (PyList (map status_struct counts))
      /\ list_sum (map snd counts) = List.length df
      /\ 1 <= List.length counts <= List.length df
      /\ (forall key : string,
            In key ["temp_mean"; "temp_std"; "humidity_mean"; "humidity_std";
                    "pressure_mean"; "pressure_std"] ->
            exists (cell : pyval),
              dict_get summary key = Some (PyList (repeat cell (List.length counts)))).
Proof.
  intros group_order pl_std recent df Hok Hdf Hne.
  set (col := map r_status df).
  pose proof (Hok col) as Hperm.
  assert (Hnd : NoDup (group_order col))
    by (apply (Permutation_NoDup (Permutation_sym Hperm)); apply NoDup_nodup).
  eexists. exists (value_counts group_order col).
  split; [apply (get_statistical_summary_nonempty group_order pl_std recent df Hdf Hne) |].
  split; [reflexivity |]. split; [reflexivity |].
  assert (Hlen : List.length (value_counts group_order col)
                 = List.length (group_order col))
    by (unfold value_counts; apply length_map).
  split; [| split].
  - unfold value_counts. rewrite map_map.
    rewrite (map_ext _ (count_occ string_dec col)) by reflexivity.
    rewrite (count_occ_sum col (group_order col) Hnd).
    + subst col. apply length_map.
    + intros v Hv. apply (Permutation_in _ (Permutation_sym Hperm)).
      apply nodup_In. exact Hv.
  - rewrite Hlen. split.
    + destruct df as [| r df']; [congruence |].
      assert (Hin : In (r_status r) (group_order col)).
      { apply (Permutation_in _ (Permutation_sym Hperm)). apply nodup_In.
        subst col. left. reflexivity. }
      destruct (group_order col); [contradiction | simpl; lia].
    + replace (List.length df) with (List.length col) by (subst col; apply length_map).
      apply NoDup_incl_length; [exact Hnd |].
      intros v Hv. apply (Permutation_in _ Hperm) in Hv. apply nodup_In in Hv. exact Hv.
  - intros key Hkey. rewrite Hlen. fold col.
    destruct Hkey as [<- | [<- | [<- | [<- | [<- | [<- | []]]]]]];
      eexists; reflexivity.
Qed.

Lemma statistical_summary_shape_witness :
  group_order_ok first_seen
  /\ get_sensor_dataframe twenty_readings = Ok twenty_rows
  /\ exists summary, get_statistical_summary first_seen col_std twenty_readings = Ok summary
                     /\ List.length summary = 7.
Proof.
  split; [exact first_seen_ok |]. split; [vm_compute; reflexivity |].
  destruct (statistical_summary_shape first_seen col_std twenty_readings twenty_rows
              first_seen_ok)
    as (summary & counts & Hsum & Hkeys & _).
  - vm_compute. reflexivity.
  - discriminate.
  - exists summary. split; [exact Hsum |].
    unfold dict_keys in Hkeys. rewrite <- (length_map fst), Hkeys. reflexivity.
Defined.

(** X14. The detector and the summary use the same statistics: for a frame
    of at least 10 rows, every record that [detect_anomalies] returns is
    the record of a row of the frame whose [temp_zscore] is
    [(temperature - m) / s] and is an outlier, where [m] and [s] are the
    very cells that [get_statistical_summary] reports under [temp_mean] and
    [temp_std] for the same deque. *)
Theorem anomalies_use_summary_statistics :
  forall (group_order : list string -> list string)
         (pl_std : list float -> option float) (recent : list Reading)
         (df : DataFrame),
    get_sensor_dataframe recent = Ok df ->
    10 <= List.length df ->
    exists (summary : pydict) (anomalies : list pydict) (m s : option float),
      get_statistical_summary group_order pl_std recent = Ok summary
      /\ detect_anomalies pl_std recent = Ok anomalies
      /\ dict_get summary "temp_mean"
         = Some (broadcast (List.length (group_order (map r_status df))) (py_of_cell m))
      /\ dict_get summary "temp_std"
         = Some (broadcast (List.length (group_order (map r_status df))) (py_of_cell s))
      /\ forall a : pydict,
           In a anomalies ->
           exists row : Row,
             In row df
             /\ a = [ ("timestamp", PyDatetime (r_timestamp row));
                      ("temperature", PyFloat (r_temperature row));
                      ("temp_zscore",
                       py_of_cell (lift2 PrimFloat.div
                                     (lift2 PrimFloat.sub (Some (r_temperature row)) m) s)) ]
             /\ is_outlier (lift2 PrimFloat.div
                              (lift2 PrimFloat.sub (Some (r_temperature row)) m) s) = true.
Proof.
  intros group_order pl_std recent df Hdf Hlen.
  assert (Hne : df <> []) by (destruct df; simpl in Hlen; [lia | discriminate]).
  eexists. eexists.
  exists (col_mean (map r_temperature df)), (pl_std (map r_temperature df)).
  split; [apply (get_statistical_summary_nonempty group_order pl_std recent df Hdf Hne) |].
  split; [apply (detect_anomalies_enough_data pl_std recent df Hdf Hlen) |].
  split; [reflexivity |]. split; [reflexivity |].
  intros a Ha. apply in_map_iff in Ha. destruct Ha as ([row z] & <- & Hin).
  apply filter_In in Hin. destruct Hin as [Hin Hout].
  apply in_map_iff in Hin. destruct Hin as (row' & Heq & Hrow).
  injection Heq as -> <-.
  exists row. split; [exact Hrow |]. split; [reflexivity | exact Hout].
Qed.

Lemma anomalies_use_summary_statistics_witness :
  get_sensor_dataframe twenty_readings = Ok twenty_rows
  /\ exists summary anomalies,
       get_statistical_summary first_seen col_std twenty_readings = Ok summary
       /\ detect_anomalies col_std twenty_readings = Ok anomalies.
Proof.
  split; [vm_compute; reflexivity |].
  destruct (anomalies_use_summary_statistics first_seen col_std twenty_readings twenty_rows)
    as (summary & anomalies & m & s & Hsum & Hdet & _).
  - vm_compute. reflexivity.
  - vm_compute. lia.
  - exists summary, anomalies. split; assumption.
Defined.

(** ** Start-up: the calendar of [datetime] *)

(** The quotients and remainders that [_ord2ymd] takes of [n - 1], with the
    equations and bounds of the divisions. *)
Ltac divide_ordinal n :=
  set (n0 := (n - 1)%Z);
  pose proof (Z.div_mod n0 146097 ltac:(lia)) as E1;
  pose proof (Z.mod_pos_bound n0 146097 ltac:(lia)) as B1;
  set (n400 := (n0 / 146097)%Z) in *; set (r1 := (n0 mod 146097)%Z) in *;
  pose proof (Z.div_mod r1 36524 ltac:(lia)) as E2;
  pose proof (Z.mod_pos_bound r1 36524 ltac:(lia)) as B2;
  set (n100 := (r1 / 36524)%Z) in *; set (r2 := (r1 mod 36524)%Z) in *;
  pose proof (Z.div_mod r2 1461 ltac:(lia)) as E3;
  pose proof (Z.mod_pos_bound r2 1461 ltac:(lia)) as B3;
  set (n4 := (r2 / 1461)%Z) in *; set (r3 := (r2 mod 1461)%Z) in *;
  pose proof (Z.div_mod r3 365 ltac:(lia)) as E4;
  pose proof (Z.mod_pos_bound r3 365 ltac:(lia)) as B4;
  set (n1 := (r3 / 365)%Z) in *; set (r4 := (r3 mod 365)%Z) in *.

(** The month that [_ord2ymd] estimates is one of the twelve. *)
Ltac twelve_months m H :=
  assert (H : (m = 1 \/ m = 2 \/ m = 3 \/ m = 4 \/ m = 5 \/ m = 6 \/ m = 7 \/ m = 8
               \/ m = 9 \/ m = 10 \/ m = 11 \/ m = 12)%Z) by lia.

Lemma is_leap_quotients (n400 n100 n4 n1 : Z) :
  (0 <= n100 <= 3 -> 0 <= n4 <= 24 -> 0 <= n1 <= 3 ->
   is_leap (n400 * 400 + 1 + n100 * 100 + n4 * 4 + n1)
   = ((n1 =? 3) && (negb (n4 =? 24) || (n100 =? 3))))%Z.
Proof.
  intros H100 H4 H1. unfold is_leap.
  destruct (Z.eqb_spec n1 3); destruct (Z.eqb_spec n4 24); destruct (Z.eqb_spec n100 3);
    destruct (Z.eqb_spec ((n400 * 400 + 1 + n100 * 100 + n4 * 4 + n1) mod 4) 0);
    destruct (Z.eqb_spec ((n400 * 400 + 1 + n100 * 100 + n4 * 4 + n1) mod 100) 0);
    destruct (Z.eqb_spec ((n400 * 400 + 1 + n100 * 100 + n4 * 4 + n1) mod 400) 0);
    try reflexivity; exfalso; Z.div_mod_to_equations; lia.
Qed.

Lemma ord2ymd_in_range (n : Z) :
  (0 < n <= MAXORDINAL)%Z ->
  let '(y, m, d) := ord2ymd n in
  (1 <= y <= 9999 /\ 1 <= m <= 12 /\ 1 <= d <= 31)%Z.
Proof.
  unfold MAXORDINAL, ord2ymd. intros Hn.
  divide_ordinal n.
  assert (Hn0 : (0 <= n0 <= 3652058 /\ n0 = n - 1)%Z) by (subst n0; lia).
  clearbody n0 n400 r1 n100 r2 n4 r3 n1 r4.
  assert (H400 : (0 <= n400)%Z) by lia.
  assert (H100 : (0 <= n100 <= 4)%Z) by lia.
  assert (H4 : (0 <= n4 <= 24)%Z) by lia.
  assert (H1 : (0 <= n1 <= 4)%Z) by lia.
  destruct ((n1 =? 4) || (n100 =? 4))%Z eqn:Hspecial.
  - apply orb_true_iff in Hspecial.
    destruct Hspecial as [H | H]; apply Z.eqb_eq in H; lia.
  - apply orb_false_iff in Hspecial. destruct Hspecial as [Hn1 Hn100].
    apply Z.eqb_neq in Hn1. apply Z.eqb_neq in Hn100.
    set (leapyear := ((n1 =? 3) && (negb (n4 =? 24) || (n100 =? 3)))%Z).
    clearbody leapyear.
    rewrite Z.shiftr_div_pow2 by lia. change (2 ^ 5)%Z with 32%Z.
    pose proof (Z.div_mod (r4 + 50) 32 ltac:(lia)) as E5.
    pose proof (Z.mod_pos_bound (r4 + 50) 32 ltac:(lia)) as B5.
    set (m := ((r4 + 50) / 32)%Z) in *. set (r5 := ((r4 + 50) mod 32)%Z) in *.
    clearbody m r5.
    twelve_months m Hm.
    assert (Hy : (1 <= n400 * 400 + 1 + n100 * 100 + n4 * 4 + n1 <= 9999)%Z) by lia.
    repeat (destruct Hm as [-> | Hm]); try subst m; destruct leapyear; cbn;
      match goal with
      | |- context [(?a <? ?b)%Z] => destruct (Z.ltb_spec a b)
      end; cbn; lia.
Qed.

Lemma toordinal_bounds (t : datetime) :
  datetime_in_range t = true ->
  (1 <= Z.of_N (year t) ->
   days_before_year (Z.of_N (year t)) < toordinal t
   /\ toordinal t <= days_before_year (Z.of_N (year t) + 1))%Z.
Proof.
  intros Hrange Hy. unfold datetime_in_range in Hrange.
  repeat (apply andb_true_iff in Hrange; destruct Hrange as [Hrange ?]).
  repeat match goal with
         | H : (_ <=? _)%N = true |- _ => apply N.leb_le in H
         end.
  unfold toordinal, ymd2ord, days_before_month, days_before_year, is_leap.
  set (y := Z.of_N (year t)) in *. set (m := Z.of_N (month t)).
  twelve_months m Hm.
  assert (Hd : (1 <= Z.of_N (day t) <= 31)%Z) by lia.
  clearbody y m. generalize dependent (Z.of_N (day t)). intros d Hd.
  replace (y + 1 - 1)%Z with y by lia.
  destruct (Z.eqb_spec (y mod 4) 0) as [E4 | E4];
    destruct (Z.eqb_spec (y mod 100) 0) as [E100 | E100];
    destruct (Z.eqb_spec (y mod 400) 0) as [E400 | E400];
    repeat (destruct Hm as [-> | Hm]); try subst m; cbn;
    Z.div_mod_to_equations; lia.
Qed.

Lemma days_before_year_mono (y1 y2 : Z) :
  (y1 <= y2 -> days_before_year y1 <= days_before_year y2)%Z.
Proof.
  unfold days_before_year. intros H. Z.div_mod_to_equations. lia.
Qed.

Lemma ymd2ord_ord2ymd (n : Z) :
  (0 < n)%Z ->
  let '(y, m, d) := ord2ymd n in ymd2ord y m d = n.
Proof.
  unfold ord2ymd. intros Hn.
  divide_ordinal n.
  assert (Hn0 : (0 <= n0 /\ n0 = n - 1)%Z) by (subst n0; lia).
  clearbody n0 n400 r1 n100 r2 n4 r3 n1 r4.
  assert (H400 : (0 <= n400)%Z) by lia.
  assert (H100 : (0 <= n100 <= 4)%Z) by lia.
  assert (H4 : (0 <= n4 <= 24)%Z) by lia.
  assert (H1 : (0 <= n1 <= 4)%Z) by lia.
  destruct ((n1 =? 4) || (n100 =? 4))%Z eqn:Hspecial.
  - assert (Hleap : is_leap (n400 * 400 + 1 + n100 * 100 + n4 * 4 + n1 - 1) = true).
    { apply orb_true_iff in Hspecial. unfold is_leap.
      destruct Hspecial as [H | H]; apply Z.eqb_eq in H;
        destruct (Z.eqb_spec ((n400 * 400 + 1 + n100 * 100 + n4 * 4 + n1 - 1) mod 4) 0);
        destruct (Z.eqb_spec ((n400 * 400 + 1 + n100 * 100 + n4 * 4 + n1 - 1) mod 100) 0);
        destruct (Z.eqb_spec ((n400 * 400 + 1 + n100 * 100 + n4 * 4 + n1 - 1) mod 400) 0);
        try reflexivity; exfalso; Z.div_mod_to_equations; lia. }
    unfold ymd2ord, days_before_month. rewrite Hleap. cbn.
    unfold days_before_year.
    apply orb_true_iff in Hspecial.
    destruct Hspecial as [H | H]; apply Z.eqb_eq in H;
      Z.div_mod_to_equations; lia.
  - apply orb_false_iff in Hspecial. destruct Hspecial as [Hn1 Hn100].
    apply Z.eqb_neq in Hn1. apply Z.eqb_neq in Hn100.
    set (year := (n400 * 400 + 1 + n100 * 100 + n4 * 4 + n1)%Z).
    assert (Hleap : is_leap year = ((n1 =? 3) && (negb (n4 =? 24) || (n100 =? 3)))%Z)
      by (apply is_leap_quotients; lia).
    assert (Hdby : (days_before_year year = n0 - r4)%Z).
    { unfold days_before_year, year. Z.div_mod_to_equations. lia. }
    set (leapyear := ((n1 =? 3) && (negb (n4 =? 24) || (n100 =? 3)))%Z) in *.
    assert (Hr4 : leapyear = false -> (r4 < 365)%Z) by lia.
    clearbody leapyear year.
    rewrite Z.shiftr_div_pow2 by lia. change (2 ^ 5)%Z with 32%Z.
    pose proof (Z.div_mod (r4 + 50) 32 ltac:(lia)) as E5.
    pose proof (Z.mod_pos_bound (r4 + 50) 32 ltac:(lia)) as B5.
    set (m := ((r4 + 50) / 32)%Z) in *. set (r5 := ((r4 + 50) mod 32)%Z) in *.
    clearbody m r5.
    twelve_months m Hm.
    repeat (destruct Hm as [-> | Hm]); try subst m; destruct leapyear; cbn;
      match goal with
      | |- context [(?a <? ?b)%Z] => destruct (Z.ltb_spec a b)
      end; unfold ymd2ord, days_before_month; rewrite Hleap, Hdby; cbn; lia.
Qed.

Lemma ord2ymd_day_valid (n : Z) :
  (0 < n)%Z ->
  let '(y, m, d) := ord2ymd n in (d <= days_in_month y m)%Z.
Proof.
  unfold ord2ymd. intros Hn.
  divide_ordinal n.
  assert (Hn0 : (0 <= n0 /\ n0 = n - 1)%Z) by (subst n0; lia).
  clearbody n0 n400 r1 n100 r2 n4 r3 n1 r4.
  destruct ((n1 =? 4) || (n100 =? 4))%Z eqn:Hspecial.
  - unfold days_in_month. cbn. lia.
  - apply orb_false_iff in Hspecial. destruct Hspecial as [Hn1 Hn100].
    apply Z.eqb_neq in Hn1. apply Z.eqb_neq in Hn100.
    set (year := (n400 * 400 + 1 + n100 * 100 + n4 * 4 + n1)%Z).
    assert (Hleap : is_leap year = ((n1 =? 3) && (negb (n4 =? 24) || (n100 =? 3)))%Z)
      by (apply is_leap_quotients; lia).
    set (leapyear := ((n1 =? 3) && (negb (n4 =? 24) || (n100 =? 3)))%Z) in *.
    clearbody leapyear year.
    rewrite Z.shiftr_div_pow2 by lia. change (2 ^ 5)%Z with 32%Z.
    pose proof (Z.div_mod (r4 + 50) 32 ltac:(lia)) as E5.
    pose proof (Z.mod_pos_bound (r4 + 50) 32 ltac:(lia)) as B5.
    set (m := ((r4 + 50) / 32)%Z) in *. set (r5 := ((r4 + 50) mod 32)%Z) in *.
    clearbody m r5.
    twelve_months m Hm.
    repeat (destruct Hm as [-> | Hm]); try subst m; destruct leapyear; cbn;
      match goal with
      | |- context [(?a <? ?b)%Z] => destruct (Z.ltb_spec a b)
      end; unfold days_in_month; rewrite Hleap; cbn; lia.
Qed.

Lemma StronglySorted_nth_error {A : Type} (R : A -> A -> Prop) (l : list A) :
  (forall i j a b, i < j -> nth_error l i = Some a -> nth_error l j = Some b -> R a b) ->
  StronglySorted R l.
Proof.
  induction l as [| x l IH]; intros H; constructor.
  - apply IH. intros i j a b Hij Ha Hb. apply (H (S i) (S j)); [lia | exact Ha | exact Hb].
  - apply Forall_forall. intros y Hy. apply In_nth_error in Hy. destruct Hy as [j Hj].
    apply (H 0 (S j)); [lia | reflexivity | exact Hj].
Qed.

(** ** Start-up: the bootstrapped history *)

Lemma datetime_add_seconds (t : datetime) (s : Z) :
  datetime_in_range t = true ->
  (0 < toordinal t + (seconds_of_day t + s) / 86400 <= MAXORDINAL)%Z ->
  exists t' : datetime,
    datetime_add t (timedelta_seconds s) = Returns t'
    /\ datetime_valid t' = true
    /\ microsecond t' = microsecond t
    /\ toordinal t' = (toordinal t + (seconds_of_day t + s) / 86400)%Z
    /\ seconds_of_day t' = ((seconds_of_day t + s) mod 86400)%Z.
Proof.
  intros Hrange Hdays.
  pose proof Hrange as Hr. unfold datetime_in_range in Hr.
  repeat (apply andb_true_iff in Hr; destruct Hr as [Hr ?]).
  repeat match goal with
         | H : (_ <=? _)%N = true |- _ => apply N.leb_le in H
         end.
  unfold datetime_add, timedelta_seconds, timedelta_new. cbn [td_days td_seconds td_microseconds].
  unfold seconds_of_day in Hdays |- *.
  set (hms := (Z.of_N (hour t) * 3600 + Z.of_N (minute t) * 60 + Z.of_N (second t))%Z) in *.
  assert (Hhms : (0 <= hms < 86400)%Z) by (subst hms; lia).
  assert (Hus : (0 <= Z.of_N (microsecond t) < 1000000)%Z) by lia.
  change (0 / 1000000)%Z with 0%Z. change (0 mod 1000000)%Z with 0%Z.
  rewrite !Z.add_0_r, Z.add_0_l.
  rewrite (Z.div_small (Z.of_N (microsecond t))) by lia.
  rewrite (Z.mod_small (Z.of_N (microsecond t))) by lia.
  rewrite !Z.add_0_r.
  assert (Hd : (toordinal t + s / 86400 + (hms + s mod 86400) / 86400
                = toordinal t + (hms + s) / 86400)%Z)
    by (Z.div_mod_to_equations; lia).
  rewrite Hd.
  assert (Hs : ((hms + s mod 86400) mod 86400 = (hms + s) mod 86400)%Z)
    by (Z.div_mod_to_equations; lia).
  rewrite Hs.
  set (days := (toordinal t + (hms + s) / 86400)%Z) in *.
  destruct (Z.ltb_spec 0 days) as [_ | ?]; [| lia].
  destruct (Z.leb_spec days MAXORDINAL) as [_ | ?]; [| lia].
  cbn [andb].
  pose proof (ord2ymd_in_range days Hdays) as Hymd.
  pose proof (ymd2ord_ord2ymd days (proj1 Hdays)) as Hord.
  pose proof (ord2ymd_day_valid days (proj1 Hdays)) as Hvalid.
  destruct (ord2ymd days) as [[y m] d].
  destruct Hymd as (Hy & Hm & Hdd).
  eexists. split; [reflexivity |].
  set (sec := ((hms + s) mod 86400)%Z).
  assert (Hsec : (0 <= sec < 86400)%Z) by (subst sec; apply Z.mod_pos_bound; lia).
  clearbody sec.
  split; [| split; [| split]].
  - unfold datetime_valid, datetime_in_range.
    cbn [year month day hour minute second microsecond].
    rewrite !Z2N.id by lia.
    repeat (apply andb_true_iff; split);
      try (apply N.leb_le; Z.div_mod_to_equations; lia).
    apply Z.leb_le. exact Hvalid.
  - cbn [microsecond]. lia.
  - unfold toordinal. cbn [year month day].
    rewrite !Z2N.id by lia. exact Hord.
  - cbn [hour minute second].
    rewrite !Z2N.id by (Z.div_mod_to_equations; lia).
    Z.div_mod_to_equations; lia.
Qed.

Lemma comprehension_returns {A B : Type} (P : A -> B -> Prop) (f : A -> outcome B)
    (l : list A) :
  (forall a, In a l -> exists b, f a = Returns b /\ P a b) ->
  exists bs, comprehension f l = Returns bs /\ Forall2 P l bs.
Proof.
  induction l as [| a l IH]; intros H.
  - exists []. split; [reflexivity | constructor].
  - destruct (H a (or_introl eq_refl)) as (b & Hb & HP).
    destruct IH as (bs & Hbs & HF); [intros a' Ha'; apply H; right; exact Ha' |].
    exists (b :: bs). split; [| constructor; assumption].
    cbn [comprehension]. rewrite Hb, Hbs. reflexivity.
Qed.

Lemma Forall2_nth_error {A B : Type} (P : A -> B -> Prop) (l : list A) (bs : list B) :
  Forall2 P l bs ->
  forall i a, nth_error l i = Some a -> exists b, nth_error bs i = Some b /\ P a b.
Proof.
  induction 1 as [| a b l bs HP _ IH]; intros i x Hi.
  - destruct i; discriminate.
  - destruct i as [| i]; cbn in *.
    + injection Hi as <-. eauto.
    + apply IH. exact Hi.
Qed.

Lemma deque_extend_short {A : Type} (maxlen : nat) (xs : list A) :
  List.length xs <= maxlen -> deque_extend maxlen [] xs = xs.
Proof.
  intros H. rewrite deque_extend_lastn by (cbn; lia). cbn [app]. unfold lastn.
  replace (List.length xs - maxlen) with 0 by lia. reflexivity.
Qed.


Lemma history_returns (now : datetime) (draws : nat -> Draw) :
  datetime_in_range now = true ->
  (2 <= year now <= 9998)%N ->
  exists history : list Reading,
    initialize_history now draws recent_readings_empty = Returns history
    /\ List.length history = 50
    /\ forall i, i < 50 ->
         exists t : datetime,
           nth_error history i = Some (generate_reading now (Some t) (draws i))
           /\ datetime_valid t = true
           /\ microsecond t = microsecond now
           /\ elapsed_seconds t = (elapsed_seconds now - 600 + 12 * Z.of_nat i)%Z.
Proof.
  intros Hrange Hyear.
  destruct (toordinal_bounds now Hrange ltac:(lia)) as [Hlo Hhi].
  pose proof (days_before_year_mono 2 (Z.of_N (year now)) ltac:(lia)) as Hlo'.
  pose proof (days_before_year_mono (Z.of_N (year now) + 1) 9999 ltac:(lia)) as Hhi'.
  change (days_before_year 2) with 365%Z in Hlo'.
  change (days_before_year 9999) with 3651694%Z in Hhi'.
  assert (Hsod : (0 <= seconds_of_day now < 86400)%Z).
  { unfold datetime_in_range in Hrange.
    repeat (apply andb_true_iff in Hrange; destruct Hrange as [Hrange ?]).
    repeat match goal with
           | H : (_ <=? _)%N = true |- _ => apply N.leb_le in H
           end.
    unfold seconds_of_day. lia. }
  destruct (datetime_add_seconds now (-600) Hrange)
    as (base & Hbase & Hbvalid & Hbus & Hbord & Hbsod).
  { unfold MAXORDINAL. Z.div_mod_to_equations. lia. }
  assert (Hbrange : datetime_in_range base = true).
  { unfold datetime_valid in Hbvalid.
    apply andb_true_iff in Hbvalid. destruct Hbvalid as [Hbvalid _].
    apply andb_true_iff in Hbvalid. destruct Hbvalid as [Hbvalid _]. exact Hbvalid. }
  assert (Hbsod' : (0 <= seconds_of_day base < 86400)%Z)
    by (rewrite Hbsod; apply Z.mod_pos_bound; lia).
  assert (Hbord' : (365 <= toordinal base <= 3651694)%Z)
    by (rewrite Hbord; Z.div_mod_to_equations; lia).
  unfold initialize_history.
  change (datetime_sub now (timedelta_minutes 10))
    with (datetime_add now (timedelta_seconds (-600))).
  rewrite Hbase. cbn [and_then].
  destruct (comprehension_returns
              (fun (i : nat) (r : Reading) =>
                 exists t : datetime,
                   r = generate_reading now (Some t) (draws i)
                   /\ datetime_valid t = true
                   /\ microsecond t = microsecond now
                   /\ elapsed_seconds t = (elapsed_seconds now - 600 + 12 * Z.of_nat i)%Z)
              (fun i =>
                 ts <~ datetime_add base (timedelta_seconds (Z.of_nat i * 12)) ;;
                 Returns (generate_reading now (Some ts) (draws i)))
              (seq 0 50)) as (history & Hhistory & Hall).
  { intros i Hi. apply in_seq in Hi.
    destruct (datetime_add_seconds base (Z.of_nat i * 12) Hbrange)
      as (t & Ht & Htrange & Htus & Htord & Htsod).
    { unfold MAXORDINAL. Z.div_mod_to_equations. lia. }
    rewrite Ht. cbn [and_then]. eexists. split; [reflexivity |].
    exists t. repeat split; try assumption; [congruence |].
    unfold elapsed_seconds. rewrite Htord, Htsod, Hbord, Hbsod.
    Z.div_mod_to_equations. lia. }
  rewrite Hhistory. cbn [and_then].
  assert (Hlen : List.length history = 50).
  { apply Forall2_length in Hall. rewrite length_seq in Hall. congruence. }
  unfold recent_readings_extend, recent_readings_empty.
  rewrite deque_extend_short by (rewrite Hlen; unfold recent_readings_maxlen; lia).
  exists history. split; [reflexivity |]. split; [exact Hlen |].
  intros i Hi.
  destruct (Forall2_nth_error _ _ _ Hall i i) as (r & Hr & t & -> & H1 & H2 & H3).
  { rewrite nth_error_seq. destruct (Nat.ltb_spec i 50); [reflexivity | lia]. }
  exists t. auto.
Qed.

Lemma frame_raises_on_whole_second (recent : list Reading) (r : Reading)
    (now : datetime) (ts : option datetime) (d : Draw) :
  In r recent ->
  r = generate_reading now ts d ->
  microsecond (match ts with None => now | Some t => t end) = 0%N ->
  get_sensor_dataframe recent = Raise (ComputeError "timestamp").
Proof.
  intros Hin Hr Hus.
  destruct (get_sensor_dataframe recent) as [df | e] eqn:Hdf.
  - rewrite get_sensor_dataframe_mapM in Hdf.
    destruct (mapM_ok_each _ _ _ _ Hdf Hin) as [row Hrow].
    unfold parse_row in Hrow.
    destruct (strptime timestamp_format (timestamp r)) as [t |] eqn:Ht;
      [| discriminate].
    apply strptime_has_fraction in Ht.
    rewrite Hr in Ht. unfold generate_reading in Ht. cbn [timestamp] in Ht.
    rewrite isoformat_whole_second_no_fraction in Ht by exact Hus. discriminate.
  - f_equal. eapply get_sensor_dataframe_raises. exact Hdf.
Qed.

Lemma lastn_keeps {A : Type} (n : nat) (l1 l2 : list A) (x : A) :
  List.length l2 < n -> In x (lastn n (l1 ++ x :: l2)).
Proof.
  intros H. unfold lastn. rewrite skipn_app.
  apply in_or_app. right.
  rewrite length_app. cbn [List.length].
  replace (List.length l1 + S (List.length l2) - n - List.length l1) with 0 by lia.
  left. reflexivity.
Qed.

(** X15. Start-up returns when the clock reads a year from 2 to 9998: the
    deque then holds fifty readings, no stream is open and the metrics are
    at zero. The [i]th reading carries the draws [draws i] and the text of a
    valid datetime that lies [600 - 12 * i] seconds before [now], with the
    microsecond of [now]. *)
Theorem startup_history :
  forall (now : datetime) (draws : nat -> Draw),
    datetime_in_range now = true ->
    (2 <= year now <= 9998)%N ->
    exists app : App,
      startup now draws = Returns app
      /\ metrics app = mkMetrics 0 [] 0
      /\ streams app = []
      /\ List.length (recent_readings app) = 50
      /\ forall i, i < 50 ->
           exists t : datetime,
             nth_error (recent_readings app) i
             = Some (generate_reading now (Some t) (draws i))
             /\ datetime_valid t = true
             /\ microsecond t = microsecond now
             /\ elapsed_seconds t = (elapsed_seconds now - 600 + 12 * Z.of_nat i)%Z.
Proof.
  intros now draws Hrange Hyear.
  destruct (history_returns now draws Hrange Hyear) as (history & Hhistory & Hlen & Hall).
  unfold startup. rewrite Hhistory. cbn [and_then].
  eexists. split; [reflexivity |]. cbn [metrics streams recent_readings].
  repeat split; assumption.
Qed.

Lemma startup_history_witness :
  datetime_in_range (sample_time 123456) = true
  /\ exists app : App,
       startup (sample_time 123456) (fun _ => sample_draw 20%float "normal") = Returns app
       /\ List.length (recent_readings app) = 50.
Proof.
  split; [reflexivity |].
  destruct (startup_history (sample_time 123456) (fun _ => sample_draw 20%float "normal"))
    as (app & Happ & _ & _ & Hlen & _); [reflexivity | cbn; lia |].
  exists app. split; assumption.
Defined.

(** X16. After a start-up off the whole second ([microsecond] of [now] not
    0) the frame conversion returns fifty rows in chronological order: row
    [i] holds the temperature, humidity, pressure and status of [draws i];
    its timestamp lies [600 - 12 * i] seconds before the cell of [now],
    whose microsecond is the thousandth part of the microsecond of [now].
    The summary and the anomaly detection return as well. *)
Theorem startup_frame :
  forall (now : datetime) (draws : nat -> Draw) (group_order : list string -> list string)
         (pl_std : list float -> option float),
    datetime_in_range now = true ->
    (2 <= year now <= 9998)%N ->
    microsecond now <> 0%N ->
    exists (app : App) (df : DataFrame),
      startup now draws = Returns app
      /\ get_sensor_dataframe (recent_readings app) = Ok df
      /\ List.length df = 50
      /\ (forall i, i < 50 ->
            nth_error df i
            = Some (mkRow (timestamp_of now - (600 - 12 * Z.of_nat i) * 1000000)%Z
                          (d_temperature (draws i)) (d_humidity (draws i))
                          (d_pressure (draws i)) (d_status (draws i))))
      /\ chronological (map r_timestamp df)
      /\ (exists summary, get_statistical_summary group_order pl_std (recent_readings app) = Ok summary)
      /\ (exists anomalies, detect_anomalies pl_std (recent_readings app) = Ok anomalies).
Proof.
  intros now draws group_order pl_std Hrange Hyear Hus.
  destruct (history_returns now draws Hrange Hyear) as (history & Hhistory & Hlen & Hall).
  unfold startup. rewrite Hhistory. cbn [and_then].
  eexists. cbn [recent_readings].
  assert (Hparse : forall r, In r history -> exists row, parse_row r = Ok row).
  { intros r Hr. apply In_nth_error in Hr. destruct Hr as [i Hi].
    assert (Hlt : i < 50) by (rewrite <- Hlen; apply nth_error_Some; congruence).
    destruct (Hall i Hlt) as (t & Ht & Hvalid & Htus & _).
    rewrite Ht in Hi. injection Hi as <-.
    eexists. apply (parse_row_made now (Some t) (draws i)).
    - exact Hvalid.
    - congruence. }
  destruct (proj2 (mapM_ok_iff parse_row history) Hparse) as [df Hdf].
  assert (Hframe : get_sensor_dataframe history = Ok df)
    by (rewrite get_sensor_dataframe_mapM; exact Hdf).
  assert (Hdflen : List.length df = 50)
    by (rewrite (mapM_ok_length _ _ _ Hdf); exact Hlen).
  assert (Hrows : forall i, i < 50 ->
            nth_error df i
            = Some (mkRow (timestamp_of now - (600 - 12 * Z.of_nat i) * 1000000)%Z
                          (d_temperature (draws i)) (d_humidity (draws i))
                          (d_pressure (draws i)) (d_status (draws i)))).
  { intros i Hi. destruct (Hall i Hi) as (t & Ht & Hvalid & Htus & Hel).
    destruct (Forall2_nth_error _ _ _ (mapM_ok_Forall2 _ _ _ Hdf) i _ Ht) as (row & Hrow & Hp).
    rewrite (parse_row_made now (Some t) (draws i)) in Hp
      by (try exact Hvalid; congruence).
    injection Hp as <-. rewrite Hrow. do 2 f_equal.
    unfold timestamp_of. rewrite Htus, Hel. lia. }
  exists df. split; [reflexivity |]. split; [exact Hframe |]. split; [exact Hdflen |].
  split; [exact Hrows |]. split; [| split].
  - unfold chronological. apply StronglySorted_nth_error.
    intros i j a b Hij Ha Hb.
    assert (Hj : j < 50).
    { assert (Hsome : j < List.length (map r_timestamp df)).
      { apply nth_error_Some. intros Hn.
        pose proof (eq_trans (eq_sym Hn) Hb) as Hc. discriminate Hc. }
      rewrite length_map, Hdflen in Hsome. exact Hsome. }
    rewrite nth_error_map, (Hrows i ltac:(lia)) in Ha.
    rewrite nth_error_map, (Hrows j Hj) in Hb.
    assert (Ea : a = (timestamp_of now - (600 - 12 * Z.of_nat i) * 1000000)%Z)
      by (change (Some (timestamp_of now - (600 - 12 * Z.of_nat i) * 1000000)%Z = Some a)
            in Ha; congruence).
    assert (Eb : b = (timestamp_of now - (600 - 12 * Z.of_nat j) * 1000000)%Z)
      by (change (Some (timestamp_of now - (600 - 12 * Z.of_nat j) * 1000000)%Z = Some b)
            in Hb; congruence).
    rewrite Ea, Eb. lia.
  - apply (get_statistical_summary_total group_order pl_std history df Hframe).
  - destruct (detect_anomalies_total pl_std history df Hframe) as (flagged & Hflagged & _).
    eauto.
Qed.

Lemma startup_frame_witness :
  datetime_in_range (sample_time 123456) = true
  /\ exists (app : App) (df : DataFrame),
       startup (sample_time 123456) (fun _ => sample_draw 20%float "normal") = Returns app
       /\ get_sensor_dataframe (recent_readings app) = Ok df
       /\ nth_error df 0
          = Some (mkRow 1715935987000123%Z 20%float 40%float 1010%float "normal")
       /\ chronological (map r_timestamp df).
Proof.
  split; [reflexivity |].
  destruct (startup_frame (sample_time 123456) (fun _ => sample_draw 20%float "normal")
              first_seen col_std)
    as (app & df & Happ & Hdf & _ & Hrows & Hchron & _);
    [reflexivity | cbn; lia | discriminate |].
  exists app, df. split; [exact Happ |]. split; [exact Hdf |].
  split; [| exact Hchron].
  rewrite (Hrows 0) by lia. reflexivity.
Defined.

(** X17. After a start-up at a whole second ([microsecond] of [now] is 0)
    none of the bootstrapped timestamps has a fraction: the frame
    conversion, the summary and the anomaly detection raise the conversion
    error, at once and after any run of the streams in which fewer than 100
    readings were made. *)
Theorem startup_on_whole_second :
  forall (now : datetime) (draws : nat -> Draw) (group_order : list string -> list string)
         (pl_std : list float -> option float) (actions : list action),
    datetime_in_range now = true ->
    (2 <= year now <= 9998)%N ->
    microsecond now = 0%N ->
    exists app : App,
      startup now draws = Returns app
      /\ (List.length (generated app actions) < 100 ->
          get_sensor_dataframe (recent_readings (run app actions))
          = Raise (ComputeError "timestamp")
          /\ get_statistical_summary group_order pl_std (recent_readings (run app actions))
             = Raise (ComputeError "timestamp")
          /\ detect_anomalies pl_std (recent_readings (run app actions))
             = Raise (ComputeError "timestamp")).
Proof.
  intros now draws group_order pl_std actions Hrange Hyear Hus.
  destruct (history_returns now draws Hrange Hyear) as (history & Hhistory & Hlen & Hall).
  unfold startup. rewrite Hhistory. cbn [and_then].
  eexists. split; [reflexivity |].
  set (app := mkApp history (mkMetrics 0 [] 0) []).
  intros Hfew.
  assert (Hraise : get_sensor_dataframe (recent_readings (run app actions))
                   = Raise (ComputeError "timestamp")).
  { destruct (Hall 49 ltac:(lia)) as (t & Ht & _ & Htus & _).
    destruct (nth_error_split _ _ Ht) as (front & back & Hsplit & Hfront).
    assert (Hback : back = []).
    { rewrite Hsplit, length_app in Hlen. cbn [List.length] in Hlen.
      destruct back; [reflexivity | cbn [List.length] in Hlen; lia]. }
    apply (frame_raises_on_whole_second _ (generate_reading now (Some t) (draws 49))
             now (Some t) (draws 49)).
    - rewrite recent_readings_run by (cbn [recent_readings app]; lia).
      cbn [recent_readings app]. rewrite Hsplit, Hback, <- app_assoc.
      apply lastn_keeps. exact Hfew.
    - reflexivity.
    - congruence. }
  split; [exact Hraise |].
  unfold get_statistical_summary, detect_anomalies. rewrite Hraise.
  split; reflexivity.
Qed.

Lemma startup_on_whole_second_witness :
  datetime_in_range (sample_time 0) = true
  /\ exists app : App,
       startup (sample_time 0) (fun _ => sample_draw 20%float "normal") = Returns app
       /\ detect_anomalies col_std (recent_readings app) = Raise (ComputeError "timestamp").
Proof.
  split; [reflexivity |].
  destruct (startup_on_whole_second (sample_time 0) (fun _ => sample_draw 20%float "normal")
              first_seen col_std [])
    as (app & Happ & H); [reflexivity | cbn; lia | reflexivity |].
  exists app. split; [exact Happ |].
  apply H. cbn. lia.
Defined.

(** ** GET /metrics *)

Lemma step_chart_generation_times (app : App) (a : action) :
  chart_generation_times (metrics (step app a)) = chart_generation_times (metrics app).
Proof.
  destruct a as [| i now d | i e]; simpl; try reflexivity.
  - unfold event_generator_next.
    destruct (nth_error (streams app) i) as [[[| |] out] |]; reflexivity.
  - unfold event_generator_throw.
    destruct (nth_error (streams app) i) as [[[| |] out] |]; try reflexivity.
    destruct (is_handled e); reflexivity.
Qed.

Lemma filter_length_le {A : Type} (p : A -> bool) (l : list A) :
  List.length (filter p l) <= List.length l.
Proof.
  induction l as [| x l IH]; simpl; [lia |]. destruct (p x); simpl; lia.
Qed.

Section MetricsFacts.
Variable group_order : list string -> list string.
Variable pl_std : list float -> option float.
Variable pl_corr : list float -> list float -> option float.
Variable fromisoformat_text : string -> option datetime.
Variable py_sum : list float -> float.

Lemma serve_chart_generation_times (app : App) (req : request) :
  chart_generation_times
    (metrics (serve group_order pl_std pl_corr fromisoformat_text py_sum app req))
  = chart_generation_times (metrics app)
    ++ chart_made group_order pl_std pl_corr fromisoformat_text app req.
Proof.
  destruct req as [a | | duration | | now | now]; cbn [serve chart_made];
    try (rewrite app_nil_r; reflexivity).
  - rewrite app_nil_r. apply step_chart_generation_times.
  - unfold get_charts.
    match goal with
    | |- context [match ?body with Returns _ => _ | Raises _ => _ end] => destruct body
    end; cbn; [reflexivity | rewrite app_nil_r; reflexivity].
Qed.

Lemma serve_all_chart_generation_times (app : App) (reqs : list request) :
  chart_generation_times
    (metrics (serve_all group_order pl_std pl_corr fromisoformat_text py_sum app reqs))
  = chart_generation_times (metrics app)
    ++ charts_made group_order pl_std pl_corr fromisoformat_text py_sum app reqs.
Proof.
  revert app. induction reqs as [| req reqs IH]; intros app.
  - cbn. rewrite app_nil_r. reflexivity.
  - change (serve_all group_order pl_std pl_corr fromisoformat_text py_sum app (req :: reqs))
      with (serve_all group_order pl_std pl_corr fromisoformat_text py_sum
              (serve group_order pl_std pl_corr fromisoformat_text py_sum app req) reqs).
    rewrite IH, serve_chart_generation_times. cbn [charts_made].
    rewrite app_assoc. reflexivity.
Qed.

(** X18. The log of chart timings only grows: after any sequence of
    requests and stream events it is the log before, followed by the
    durations of the [GET /charts] requests that returned, in order; a
    request that raised leaves no entry and no entry is ever dropped.
    [GET /metrics] reports the length of the whole log as
    [chart_generations], its mean as [avg_chart_time] (the integer 0 for an
    empty log), a [slow_chart_count] that is at most [chart_generations],
    and as [latest_reading_time] the timestamp of the reading that
    [GET /sensor-data] returns ([None] for an empty deque). *)
Theorem metrics_report :
  forall (app : App) (reqs : list request) (now : datetime),
    let app' := serve_all group_order pl_std pl_corr fromisoformat_text py_sum app reqs in
    let times := chart_generation_times (metrics app)
                 ++ charts_made group_order pl_std pl_corr fromisoformat_text py_sum app reqs in
    let report := snd (get_metrics py_sum now app') in
    chart_generation_times (metrics app') = times
    /\ exists (data performance : pydict) (slow : nat),
         dict_get report "data" = Some (PyDict data)
         /\ dict_get report "performance" = Some (PyDict performance)
         /\ dict_get performance "chart_generations"
            = Some (PyInt (Z.of_nat (List.length times)))
         /\ dict_get performance "avg_chart_time"
            = Some (match times with
                    | [] => PyInt 0
                    | _ :: _ => PyFloat (py_sum times / float_of_nat (List.length times))
                    end)
         /\ dict_get performance "slow_chart_count" = Some (PyInt (Z.of_nat slow))
         /\ slow <= List.length times
         /\ dict_get data "latest_reading_time"
            = Some (match snd (get_sensor_data app') with
                    | None => PyNone
                    | Some r => PyStr (timestamp r)
                    end).
Proof.
  intros app reqs now app' times report.
  assert (Htimes : chart_generation_times (metrics app') = times)
    by apply serve_all_chart_generation_times.
  split; [exact Htimes |].
  subst report. unfold get_metrics.
  cbn [snd track_request chart_generation_times connection_count total_requests].
  rewrite Htimes.
  eexists. eexists. exists (List.length (filter (fun t => (1 <? t)%float) times)).
  split; [reflexivity |]. split; [reflexivity |].
  split; [reflexivity |]. split; [destruct times; reflexivity |].
  split; [reflexivity |]. split; [apply filter_length_le |].
  cbn [dict_get String.eqb Ascii.eqb Bool.eqb].
  unfold get_sensor_data. cbn [snd].
  destruct (recent_readings app'); reflexivity.
Qed.
End MetricsFacts.
